(** * time_helpers.c: the C shim between epoch instants and broken-down time

    A shallow embedding of [src/time_helpers.c] of the [time] crate.  The file
    is glue around the host C library: every conversion is delegated to
    [gmtime_r], [localtime_r], [timegm], [mktime] or their Windows
    counterparts.  The host library is therefore a parameter of the model (the
    record [host]), the process-global state it reads and writes is explicit
    (the record [process]), and the preprocessor branches of the source are the
    constructors of [target]. *)

From Stdlib Require Import ZArith Lia Bool String.
From stdpp Require Import gmap strings.

Local Open Scope Z_scope.

(** ** Machine integers

    C integers are modelled as [Z]; a conversion to a signed [w]-bit type keeps
    the value modulo [2^w], which is what every supported compiler does. *)

Definition wrap (w x : Z) : Z := (x + 2 ^ (w - 1)) mod 2 ^ w - 2 ^ (w - 1).

Definition fits (w x : Z) : Prop := - 2 ^ (w - 1) <= x < 2 ^ (w - 1).

Definition fitsb (w x : Z) : bool := (- 2 ^ (w - 1) <=? x) && (x <? 2 ^ (w - 1)).

(** [int32_t], [int] (32 bits on every target of the file) and [int64_t]. *)
Definition to_int32 : Z -> Z := wrap 32.
Definition to_int : Z -> Z := wrap 32.
Definition to_int64 : Z -> Z := wrap 64.

(** The null pointer, and the value standing for a pointer to a live object. *)
Definition NULL : Z := 0.
Definition nonnull : Z := 1.

(** ** Build targets: the preprocessor branches of lines 17-65 and 111-142 *)
Inductive target : Set :=
  | Win32_MSVC      (* _WIN32, _MSC_VER >= 1400: lines 113-115 *)
  | Win32_CRT       (* _WIN32 otherwise: lines 117-129 *)
  | NativeClient    (* __native_client__: line 134 *)
  | Android_pre21   (* __ANDROID__, API level below 21, not Gonk: lines 45-62 *)
  | Posix.          (* every other host: lines 136-140 *)

(** ** [struct tm] and the host library

    The nine standard members are [int]; [tm_gmtoff] ([long]) and [tm_zone]
    (a pointer) are the BSD/glibc extensions read at line 164.  On Windows the
    two extension members do not exist and are simply never read. *)
Module Libc.

Record tm := mk_tm {
  tm_sec : Z; tm_min : Z; tm_hour : Z; tm_mday : Z; tm_mon : Z; tm_year : Z;
  tm_wday : Z; tm_yday : Z; tm_isdst : Z; tm_gmtoff : Z; tm_zone : Z }.

Definition set_tm_sec (v : Z) (t : tm) : tm :=
  mk_tm v (tm_min t) (tm_hour t) (tm_mday t) (tm_mon t) (tm_year t)
        (tm_wday t) (tm_yday t) (tm_isdst t) (tm_gmtoff t) (tm_zone t).
Definition set_tm_min (v : Z) (t : tm) : tm :=
  mk_tm (tm_sec t) v (tm_hour t) (tm_mday t) (tm_mon t) (tm_year t)
        (tm_wday t) (tm_yday t) (tm_isdst t) (tm_gmtoff t) (tm_zone t).
Definition set_tm_hour (v : Z) (t : tm) : tm :=
  mk_tm (tm_sec t) (tm_min t) v (tm_mday t) (tm_mon t) (tm_year t)
        (tm_wday t) (tm_yday t) (tm_isdst t) (tm_gmtoff t) (tm_zone t).
Definition set_tm_mday (v : Z) (t : tm) : tm :=
  mk_tm (tm_sec t) (tm_min t) (tm_hour t) v (tm_mon t) (tm_year t)
        (tm_wday t) (tm_yday t) (tm_isdst t) (tm_gmtoff t) (tm_zone t).
Definition set_tm_mon (v : Z) (t : tm) : tm :=
  mk_tm (tm_sec t) (tm_min t) (tm_hour t) (tm_mday t) v (tm_year t)
        (tm_wday t) (tm_yday t) (tm_isdst t) (tm_gmtoff t) (tm_zone t).
Definition set_tm_year (v : Z) (t : tm) : tm :=
  mk_tm (tm_sec t) (tm_min t) (tm_hour t) (tm_mday t) (tm_mon t) v
        (tm_wday t) (tm_yday t) (tm_isdst t) (tm_gmtoff t) (tm_zone t).
Definition set_tm_wday (v : Z) (t : tm) : tm :=
  mk_tm (tm_sec t) (tm_min t) (tm_hour t) (tm_mday t) (tm_mon t) (tm_year t)
        v (tm_yday t) (tm_isdst t) (tm_gmtoff t) (tm_zone t).
Definition set_tm_yday (v : Z) (t : tm) : tm :=
  mk_tm (tm_sec t) (tm_min t) (tm_hour t) (tm_mday t) (tm_mon t) (tm_year t)
        (tm_wday t) v (tm_isdst t) (tm_gmtoff t) (tm_zone t).
Definition set_tm_isdst (v : Z) (t : tm) : tm :=
  mk_tm (tm_sec t) (tm_min t) (tm_hour t) (tm_mday t) (tm_mon t) (tm_year t)
        (tm_wday t) (tm_yday t) v (tm_gmtoff t) (tm_zone t).

(** [memset(&t, 0, sizeof(struct tm))]: every member zero, [tm_zone] null. *)
Definition zeroed : tm := mk_tm 0 0 0 0 0 0 0 0 0 0 0.

(** Every [int] member holds an [int]. *)
Definition ints_ok (t : tm) : bool :=
  fitsb 32 (tm_sec t) && fitsb 32 (tm_min t) && fitsb 32 (tm_hour t) &&
  fitsb 32 (tm_mday t) && fitsb 32 (tm_mon t) && fitsb 32 (tm_year t) &&
  fitsb 32 (tm_wday t) && fitsb 32 (tm_yday t) && fitsb 32 (tm_isdst t).

(** The host: the build target and the C library found there.  A call that
    returns a pointer to a filled [struct tm] is an [option], [None] being the
    null pointer.  A reentrant call that fails may have stored some members
    before it gave up: [gmtime_r_leaves] and [localtime_r_leaves] give the
    content of the caller's buffer after a failed call, from its content
    before.  [gmtime] and [localtime] return a pointer to storage of their
    own.  The [_s] variants of the Microsoft runtime return an [errno_t] next
    to the buffer.  The local-time calls and the global [timezone] depend on
    a time-zone rule, their first argument: the decoders use the rule that
    [tzset] loaded last, [mktime] the rule it loads itself (see [mktime]
    below).  [mktime] also normalises its argument in place; the shim never
    reads it back, so only the returned [time_t] is modelled.  [strdup]
    returns [None] when the allocation fails. *)
Record host := mk_host {
  target_of : target;
  time_t_bits : Z;
  gmtime_r : Z -> option tm;
  gmtime_r_leaves : Z -> tm -> tm;
  localtime_r : option string -> Z -> option tm;
  localtime_r_leaves : option string -> Z -> tm -> tm;
  gmtime : Z -> option tm;
  localtime : option string -> Z -> option tm;
  gmtime_s : Z -> tm -> Z * tm;
  localtime_s : option string -> Z -> tm -> Z * tm;
  timegm : tm -> Z;
  _mkgmtime64 : tm -> Z;
  mktime : option string -> tm -> Z;
  timezone : option string -> Z;
  strdup : string -> option string }.

End Libc.

(** ** Process-global state: the environment and the loaded time-zone rule *)

Record process := mk_process {
  environ : gmap string string;
  tz_loaded : option string }.

Definition getenv (name : string) (p : process) : option string :=
  environ p !! name.

(** [setenv(name, value, 1)]; its status is ignored by the source and the call
    is taken to succeed. *)
Definition setenv (name value : string) (p : process) : process :=
  mk_process (<[name := value]> (environ p)) (tz_loaded p).

Definition unsetenv (name : string) (p : process) : process :=
  mk_process (delete name (environ p)) (tz_loaded p).

Definition tzset (p : process) : process :=
  mk_process (environ p) (environ p !! "TZ"%string).

(** ** [rust_time_tm] (lines 67-79) *)

Record rust_time_tm := mk_rust_time_tm {
  tm_sec : Z; tm_min : Z; tm_hour : Z; tm_mday : Z; tm_mon : Z; tm_year : Z;
  tm_wday : Z; tm_yday : Z; tm_isdst : Z; tm_utcoff : Z; tm_nsec : Z }.

Definition set_tm_sec (v : Z) (t : rust_time_tm) : rust_time_tm :=
  mk_rust_time_tm v (tm_min t) (tm_hour t) (tm_mday t) (tm_mon t) (tm_year t)
                  (tm_wday t) (tm_yday t) (tm_isdst t) (tm_utcoff t) (tm_nsec t).
Definition set_tm_min (v : Z) (t : rust_time_tm) : rust_time_tm :=
  mk_rust_time_tm (tm_sec t) v (tm_hour t) (tm_mday t) (tm_mon t) (tm_year t)
                  (tm_wday t) (tm_yday t) (tm_isdst t) (tm_utcoff t) (tm_nsec t).
Definition set_tm_hour (v : Z) (t : rust_time_tm) : rust_time_tm :=
  mk_rust_time_tm (tm_sec t) (tm_min t) v (tm_mday t) (tm_mon t) (tm_year t)
                  (tm_wday t) (tm_yday t) (tm_isdst t) (tm_utcoff t) (tm_nsec t).
Definition set_tm_mday (v : Z) (t : rust_time_tm) : rust_time_tm :=
  mk_rust_time_tm (tm_sec t) (tm_min t) (tm_hour t) v (tm_mon t) (tm_year t)
                  (tm_wday t) (tm_yday t) (tm_isdst t) (tm_utcoff t) (tm_nsec t).
Definition set_tm_mon (v : Z) (t : rust_time_tm) : rust_time_tm :=
  mk_rust_time_tm (tm_sec t) (tm_min t) (tm_hour t) (tm_mday t) v (tm_year t)
                  (tm_wday t) (tm_yday t) (tm_isdst t) (tm_utcoff t) (tm_nsec t).
Definition set_tm_year (v : Z) (t : rust_time_tm) : rust_time_tm :=
  mk_rust_time_tm (tm_sec t) (tm_min t) (tm_hour t) (tm_mday t) (tm_mon t) v
                  (tm_wday t) (tm_yday t) (tm_isdst t) (tm_utcoff t) (tm_nsec t).
Definition set_tm_wday (v : Z) (t : rust_time_tm) : rust_time_tm :=
  mk_rust_time_tm (tm_sec t) (tm_min t) (tm_hour t) (tm_mday t) (tm_mon t) (tm_year t)
                  v (tm_yday t) (tm_isdst t) (tm_utcoff t) (tm_nsec t).
Definition set_tm_yday (v : Z) (t : rust_time_tm) : rust_time_tm :=
  mk_rust_time_tm (tm_sec t) (tm_min t) (tm_hour t) (tm_mday t) (tm_mon t) (tm_year t)
                  (tm_wday t) v (tm_isdst t) (tm_utcoff t) (tm_nsec t).
Definition set_tm_isdst (v : Z) (t : rust_time_tm) : rust_time_tm :=
  mk_rust_time_tm (tm_sec t) (tm_min t) (tm_hour t) (tm_mday t) (tm_mon t) (tm_year t)
                  (tm_wday t) (tm_yday t) v (tm_utcoff t) (tm_nsec t).
Definition set_tm_utcoff (v : Z) (t : rust_time_tm) : rust_time_tm :=
  mk_rust_time_tm (tm_sec t) (tm_min t) (tm_hour t) (tm_mday t) (tm_mon t) (tm_year t)
                  (tm_wday t) (tm_yday t) (tm_isdst t) v (tm_nsec t).
Definition set_tm_nsec (v : Z) (t : rust_time_tm) : rust_time_tm :=
  mk_rust_time_tm (tm_sec t) (tm_min t) (tm_hour t) (tm_mday t) (tm_mon t) (tm_year t)
                  (tm_wday t) (tm_yday t) (tm_isdst t) (tm_utcoff t) v.

(** ** The two field-copying helpers *)

(** [rust_time_tm_to_tm] (lines 81-92): clear the whole [struct tm], then copy
    the nine standard members.  [tm_utcoff] and [tm_nsec] are not read.  As
    the [memset] comes first, the previous content of [*out_tm] plays no part
    and is not an argument. *)
Definition rust_time_tm_to_tm (in_tm : rust_time_tm) : Libc.tm :=
  let out_tm := Libc.zeroed in
  let out_tm := Libc.set_tm_sec (to_int (tm_sec in_tm)) out_tm in
  let out_tm := Libc.set_tm_min (to_int (tm_min in_tm)) out_tm in
  let out_tm := Libc.set_tm_hour (to_int (tm_hour in_tm)) out_tm in
  let out_tm := Libc.set_tm_mday (to_int (tm_mday in_tm)) out_tm in
  let out_tm := Libc.set_tm_mon (to_int (tm_mon in_tm)) out_tm in
  let out_tm := Libc.set_tm_year (to_int (tm_year in_tm)) out_tm in
  let out_tm := Libc.set_tm_wday (to_int (tm_wday in_tm)) out_tm in
  let out_tm := Libc.set_tm_yday (to_int (tm_yday in_tm)) out_tm in
  let out_tm := Libc.set_tm_isdst (to_int (tm_isdst in_tm)) out_tm in
  out_tm.

(** [tm_to_rust_tm] (lines 94-109): eleven stores into [*out_tm]. *)
Definition tm_to_rust_tm (in_tm : Libc.tm) (out_tm : rust_time_tm)
    (utcoff nsec : Z) : rust_time_tm :=
  let out_tm := set_tm_sec (to_int32 (Libc.tm_sec in_tm)) out_tm in
  let out_tm := set_tm_min (to_int32 (Libc.tm_min in_tm)) out_tm in
  let out_tm := set_tm_hour (to_int32 (Libc.tm_hour in_tm)) out_tm in
  let out_tm := set_tm_mday (to_int32 (Libc.tm_mday in_tm)) out_tm in
  let out_tm := set_tm_mon (to_int32 (Libc.tm_mon in_tm)) out_tm in
  let out_tm := set_tm_year (to_int32 (Libc.tm_year in_tm)) out_tm in
  let out_tm := set_tm_wday (to_int32 (Libc.tm_wday in_tm)) out_tm in
  let out_tm := set_tm_yday (to_int32 (Libc.tm_yday in_tm)) out_tm in
  let out_tm := set_tm_isdst (to_int32 (Libc.tm_isdst in_tm)) out_tm in
  let out_tm := set_tm_utcoff utcoff out_tm in
  let out_tm := set_tm_nsec nsec out_tm in
  out_tm.

(** ** Calls that touch the process state *)

(** [mktime(tm)] behaves as though it called [tzset] (POSIX): it computes
    with the rule of the [TZ] the process has at the call, and leaves that
    rule loaded. *)
Definition mktime (h : Libc.host) (tm : Libc.tm) (p : process) : Z * process :=
  let p := tzset p in
  (Libc.mktime h (tz_loaded p) tm, p).

(** [time_t s = sec;] and every other conversion to [time_t]. *)
Definition to_time_t (h : Libc.host) (sec : Z) : Z := wrap (Libc.time_t_bits h) sec.

(** ** The fallback [timegm] of old Android (lines 45-62) *)

Definition timegm (h : Libc.host) (tm : Libc.tm) (p : process) : Z * process :=
  let tz := getenv "TZ" p in
  let tz := match tz with
            | Some s => Libc.strdup h s          (* if (tz) tz = strdup(tz); *)
            | None => None
            end in
  let p := setenv "TZ" "" p in
  let p := tzset p in
  let '(ret, p) := mktime h tm p in
  let p := match tz with
           | Some s => setenv "TZ" s p           (* then free(tz) *)
           | None => unsetenv "TZ" p
           end in
  let p := tzset p in
  (ret, p).

(** ** The platform macros (lines 111-142)

    A macro's value is the C value the caller sees: a pointer ([NULL] or
    [nonnull]) or, for the Microsoft [_s] calls, the [errno_t]. *)

(** The static wrappers of lines 117-128; [result] is [&tm], never null.
    When the host call yields null they return before [*result = *t], so the
    caller's buffer is as it was. *)
Definition GMTIME_crt (h : Libc.host) (clock : Z) (result : Libc.tm) : Z * Libc.tm :=
  match Libc.gmtime h clock with
  | None => (NULL, result)
  | Some t => (nonnull, t)
  end.

Definition LOCALTIME_crt (h : Libc.host) (p : process) (clock : Z)
    (result : Libc.tm) : Z * Libc.tm :=
  match Libc.localtime h (tz_loaded p) clock with
  | None => (NULL, result)
  | Some t => (nonnull, t)
  end.

Definition GMTIME (h : Libc.host) (clock : Z) (result : Libc.tm) : Z * Libc.tm :=
  match Libc.target_of h with
  | Win32_MSVC => Libc.gmtime_s h clock result
  | Win32_CRT => GMTIME_crt h clock result
  | NativeClient | Android_pre21 | Posix =>
      match Libc.gmtime_r h clock with
      | None => (NULL, Libc.gmtime_r_leaves h clock result)
      | Some t => (nonnull, t)
      end
  end.

Definition LOCALTIME (h : Libc.host) (p : process) (clock : Z)
    (result : Libc.tm) : Z * Libc.tm :=
  match Libc.target_of h with
  | Win32_MSVC => Libc.localtime_s h (tz_loaded p) clock result
  | Win32_CRT => LOCALTIME_crt h p clock result
  | NativeClient | Android_pre21 | Posix =>
      match Libc.localtime_r h (tz_loaded p) clock with
      | None => (NULL, Libc.localtime_r_leaves h (tz_loaded p) clock result)
      | Some t => (nonnull, t)
      end
  end.

(** [mktime((result)) - _timezone]: the difference is a [time_t] and wraps
    as one; [_timezone] is read as [mktime] left it, which is also its value
    before the call whenever the loaded rule is that of the current [TZ].
    [timezone] and [_timezone] name the same global of the runtime. *)
Definition TIMEGM (h : Libc.host) (result : Libc.tm) (p : process) : Z * process :=
  match Libc.target_of h with
  | Win32_MSVC => (Libc._mkgmtime64 h result, p)
  | Win32_CRT | NativeClient =>
      let '(r, p) := mktime h result p in
      (to_time_t h (r - Libc.timezone h (tz_loaded p)), p)
  | Android_pre21 => timegm h result p
  | Posix => (Libc.timegm h result, p)
  end.

(** ** The four exported functions (lines 144-183)

    [tm0] is the indeterminate content of the automatic [struct tm] before the
    host call; [timeptr] is the content of the caller's record before the
    call, and the returned record is its content afterwards. *)

Definition rust_time_gmtime (h : Libc.host) (sec nsec : Z) (tm0 : Libc.tm)
    (timeptr : rust_time_tm) : rust_time_tm :=
  let s := to_time_t h sec in
  let '(_, tm) := GMTIME h s tm0 in
  tm_to_rust_tm tm timeptr 0 nsec.

(** The initialiser of [utcoff], lines 159-165: [-timezone] on Windows,
    [_timezone] on Native Client, [tm.tm_gmtoff] elsewhere. *)
Definition local_utcoff (h : Libc.host) (p : process) (tm : Libc.tm) : Z :=
  match Libc.target_of h with
  | Win32_MSVC | Win32_CRT => to_int32 (- Libc.timezone h (tz_loaded p))
  | NativeClient => to_int32 (Libc.timezone h (tz_loaded p))
  | Android_pre21 | Posix => to_int32 (Libc.tm_gmtoff tm)
  end.

Definition rust_time_localtime (h : Libc.host) (p : process) (sec nsec : Z)
    (tm0 : Libc.tm) (timeptr : rust_time_tm) : Z * rust_time_tm :=
  let s := to_time_t h sec in
  let '(r, tm) := LOCALTIME h p s tm0 in
  if r =? NULL then (0, timeptr)
  else
    let utcoff := local_utcoff h p tm in
    (1, tm_to_rust_tm tm timeptr utcoff nsec).

(** The record is only read; the [time_t] of the host is returned as an
    [int64_t], next to the process state that [TIMEGM] leaves. *)
Definition rust_time_timegm (h : Libc.host) (timeptr : rust_time_tm)
    (p : process) : Z * process :=
  let t := rust_time_tm_to_tm timeptr in
  let '(r, p) := TIMEGM h t p in
  (to_int64 r, p).

Definition rust_time_mktime (h : Libc.host) (timeptr : rust_time_tm)
    (p : process) : Z * process :=
  let t := rust_time_tm_to_tm timeptr in
  let '(r, p) := mktime h t p in
  (to_int64 r, p).

(** ** A reference host *)

(** Modelled from the spec: the host calendar facility ([gmtime_r], [timegm],
    [localtime_r], [mktime] and the Windows calls) is not part of [src/].  The
    reference below is the proleptic Gregorian calendar counted from the Epoch
    of the glossary (1970-01-01T00:00:00 UTC, a Thursday), with the field
    conventions of the data model: years since 1900, months from 0, weekday 0
    for Sunday, day of year from 0.  It serves to say what a conforming host
    computes and to run the shim on concrete inputs. *)
Module Ref.

(** Days since the Epoch of the civil date [y]-[m]-[d] ([m] from 1), and the
    converse; the year is taken to start in March so that the leap day comes
    last. *)
Definition days_from_civil (y m d : Z) : Z :=
  let y := if m <=? 2 then y - 1 else y in
  let era := y / 400 in
  let yoe := y - era * 400 in
  let mp := if m <=? 2 then m + 9 else m - 3 in
  let doy := (153 * mp + 2) / 5 + d - 1 in
  let doe := yoe * 365 + yoe / 4 - yoe / 100 + doy in
  era * 146097 + doe - 719468.

(** The 400-year era of day [z], the day of the era, the year of the era of
    that day, the day of that (March-based) year, and the month of that day
    counted from March. *)
Definition era_of (z : Z) : Z := (z + 719468) / 146097.
Definition doe_of (z : Z) : Z := z + 719468 - era_of z * 146097.
Definition yoe_of (doe : Z) : Z :=
  (doe - doe / 1460 + doe / 36524 - doe / 146096) / 365.
Definition doy_of (doe : Z) : Z :=
  doe - (365 * yoe_of doe + yoe_of doe / 4 - yoe_of doe / 100).
Definition mp_of (doy : Z) : Z := (5 * doy + 2) / 153.

Definition civil_from_days (z : Z) : Z * Z * Z :=
  let doe := doe_of z in
  let y := yoe_of doe + era_of z * 400 in
  let doy := doy_of doe in
  let mp := mp_of doy in
  let d := doy - (153 * mp + 2) / 5 + 1 in
  let m := if mp <? 10 then mp + 3 else mp - 9 in
  (if m <=? 2 then y + 1 else y, m, d).

(** The broken-down UTC time of [s], whatever the size of the year. *)
Definition civil_tm (s : Z) : Libc.tm :=
  let days := s / 86400 in
  let rem := s mod 86400 in
  let '(y, m, d) := civil_from_days days in
  Libc.mk_tm (rem mod 60) (rem mod 3600 / 60) (rem / 3600) d (m - 1) (y - 1900)
             ((days + 4) mod 7) (days - days_from_civil y 1 1) 0 0 nonnull.

(** [gmtime_r]: fails (EOVERFLOW) when the year does not fit [tm_year]. *)
Definition gmtime (s : Z) : option Libc.tm :=
  let t := civil_tm s in
  if fitsb 32 (Libc.tm_year t) then Some t else None.

(** What a failed [gmtime_r] leaves in the buffer, as glibc does: the time
    of day, the weekday, the truncated year and the UTC marks are stored
    before the overflow is seen; [tm_mday], [tm_mon] and [tm_yday] are not
    reached. *)
Definition gmtime_leaves (s : Z) (buf : Libc.tm) : Libc.tm :=
  let t := civil_tm s in
  Libc.mk_tm (Libc.tm_sec t) (Libc.tm_min t) (Libc.tm_hour t)
             (Libc.tm_mday buf) (Libc.tm_mon buf) (to_int (Libc.tm_year t))
             (Libc.tm_wday t) (Libc.tm_yday buf) 0 0 nonnull.

(** A [time_t] that does not fit is reported as -1. *)
Definition bounded (bits r : Z) : Z := if fitsb bits r then r else -1.

(** [timegm]: reads seconds to year, carries an out-of-range month into the
    year, ignores [tm_wday], [tm_yday], [tm_isdst] and the extensions. *)
Definition timegm (t : Libc.tm) : Z :=
  let y := Libc.tm_year t + 1900 + Libc.tm_mon t / 12 in
  let m := Libc.tm_mon t mod 12 + 1 in
  let days := days_from_civil y m 1 + Libc.tm_mday t - 1 in
  days * 86400 + Libc.tm_hour t * 3600 + Libc.tm_min t * 60 + Libc.tm_sec t.

(** A time zone: the standard offset east of UTC, what daylight saving adds,
    and the instants at which it is in effect. *)
Record zone := mk_zone {
  std_offset : Z;
  dst_saving : Z;
  dst_active : Z -> bool }.

Definition utc : zone := mk_zone 0 0 (fun _ => false).

(** US Eastern time, with the daylight-saving period of 2020:
    2020-03-08T07:00:00Z to 2020-11-01T06:00:00Z. *)
Definition us_eastern : zone :=
  mk_zone (-18000) 3600
    (fun s => (days_from_civil 2020 3 8 * 86400 + 7 * 3600 <=? s) &&
              (s <? days_from_civil 2020 11 1 * 86400 + 6 * 3600)).

Definition offset_at (z : zone) (s : Z) : Z :=
  std_offset z + (if dst_active z s then dst_saving z else 0).

Definition localtime (z : zone) (s : Z) : option Libc.tm :=
  let off := offset_at z s in
  match gmtime (s + off) with
  | None => None
  | Some t =>
      Some (Libc.mk_tm (Libc.tm_sec t) (Libc.tm_min t) (Libc.tm_hour t)
              (Libc.tm_mday t) (Libc.tm_mon t) (Libc.tm_year t) (Libc.tm_wday t)
              (Libc.tm_yday t) (if dst_active z s then 1 else 0) off nonnull)
  end.

Definition localtime_leaves (z : zone) (s : Z) (buf : Libc.tm) : Libc.tm :=
  let off := offset_at z s in
  let t := gmtime_leaves (s + off) buf in
  Libc.mk_tm (Libc.tm_sec t) (Libc.tm_min t) (Libc.tm_hour t)
             (Libc.tm_mday t) (Libc.tm_mon t) (Libc.tm_year t) (Libc.tm_wday t)
             (Libc.tm_yday t) (if dst_active z s then 1 else 0) off nonnull.

(** [mktime]: a positive [tm_isdst] says the fields are daylight-saving time,
    zero says standard time, a negative value lets the zone rule decide. *)
Definition mktime (z : zone) (t : Libc.tm) : Z :=
  let std := timegm t - std_offset z in
  if 0 <? Libc.tm_isdst t then std - dst_saving z
  else if Libc.tm_isdst t =? 0 then std
  else if dst_active z (std - dst_saving z) then std - dst_saving z
  else std.

(** The rule [tzset] loads: the empty string is UTC, "EST5EDT" is US Eastern,
    no [TZ] at all is the system zone [sys]. *)
Definition zone_of (sys : zone) (tz : option string) : zone :=
  match tz with
  | None => sys
  | Some s => if String.eqb s "EST5EDT" then us_eastern else utc
  end.

(** What the Microsoft [_s] calls leave in the buffer when they fail. *)
Definition invalid_tm : Libc.tm :=
  Libc.mk_tm (-1) (-1) (-1) (-1) (-1) (-1) (-1) (-1) (-1) 0 0.

Definition EINVAL : Z := 22.

(** The Microsoft calls return zero on success; they reject a negative
    [time_t]. *)
Definition gmtime_s (s : Z) (buf : Libc.tm) : Z * Libc.tm :=
  if s <? 0 then (EINVAL, invalid_tm)
  else match gmtime s with
       | Some t => (0, t)
       | None => (EINVAL, invalid_tm)
       end.

Definition localtime_s (z : zone) (s : Z) (buf : Libc.tm) : Z * Libc.tm :=
  if s <? 0 then (EINVAL, invalid_tm)
  else match localtime z s with
       | Some t => (0, t)
       | None => (EINVAL, invalid_tm)
       end.

(** The reference host for target [T] with a [bits]-wide [time_t], system
    zone [sys], and an allocator that succeeds iff [heap].  Its encoders
    return -1 when the result does not fit [time_t]. *)
Definition host (T : target) (bits : Z) (sys : zone) (heap : bool) : Libc.host :=
  Libc.mk_host T bits
    gmtime
    gmtime_leaves
    (fun tz => localtime (zone_of sys tz))
    (fun tz => localtime_leaves (zone_of sys tz))
    gmtime
    (fun tz => localtime (zone_of sys tz))
    gmtime_s
    (fun tz => localtime_s (zone_of sys tz))
    (fun t => bounded bits (timegm t))
    (fun t => bounded bits (timegm t))
    (fun tz t => bounded bits (mktime (zone_of sys tz) t))
    (fun tz => - std_offset (zone_of sys tz))
    (fun s => if heap then Some s else None).

End Ref.

(** ** What the claims speak about *)

(** The nine standard members of a [struct tm], the extensions cleared: what
    survives a trip through [rust_time_tm]. *)
Definition portable (t : Libc.tm) : Libc.tm :=
  Libc.mk_tm (Libc.tm_sec t) (Libc.tm_min t) (Libc.tm_hour t) (Libc.tm_mday t)
             (Libc.tm_mon t) (Libc.tm_year t) (Libc.tm_wday t) (Libc.tm_yday t)
             (Libc.tm_isdst t) 0 0.

(** The instants the host supports: [sec] is an [int64_t] that [time_t] can
    hold and whose year [tm_year] can hold. *)
Definition supported (h : Libc.host) (sec : Z) : Prop :=
  fits 64 sec /\ fits (Libc.time_t_bits h) sec /\ is_Some (Ref.gmtime sec).

(** The host decodes UTC as the reference calendar does: on a supported
    instant [GMTIME] fills the buffer with the reference fields. *)
Definition utc_decodes (h : Libc.host) : Prop :=
  forall s t buf, fits (Libc.time_t_bits h) s -> Ref.gmtime s = Some t ->
    portable (snd (GMTIME h s buf)) = portable t.

(** The host encodes UTC as the reference calendar does wherever it decodes
    it: on the fields of every instant that [time_t] holds and whose year
    [tm_year] holds.  Nothing is asked of [TIMEGM] on other fields, where a
    host may overflow or report -1. *)
Definition utc_encodes (h : Libc.host) (p : process) : Prop :=
  forall s t, fits (Libc.time_t_bits h) s -> Ref.gmtime s = Some t ->
    fst (TIMEGM h (portable t) p) = Ref.timegm (portable t).

(** The same two requirements, said of the host calls that [GMTIME] and
    [TIMEGM] stand for on each target. *)
Definition host_decodes_utc (h : Libc.host) : Prop :=
  forall s t, fits (Libc.time_t_bits h) s -> Ref.gmtime s = Some t ->
    match Libc.target_of h with
    | Win32_MSVC => forall buf, portable (snd (Libc.gmtime_s h s buf)) = portable t
    | Win32_CRT => exists t', Libc.gmtime h s = Some t' /\ portable t' = portable t
    | NativeClient | Android_pre21 | Posix =>
        exists t', Libc.gmtime_r h s = Some t' /\ portable t' = portable t
    end.

Definition host_encodes_utc (h : Libc.host) (p : process) : Prop :=
  forall s t, fits (Libc.time_t_bits h) s -> Ref.gmtime s = Some t ->
    match Libc.target_of h with
    | Win32_MSVC => Libc._mkgmtime64 h (portable t) = s
    | Win32_CRT | NativeClient =>
        Libc.mktime h (getenv "TZ" p) (portable t)
        - Libc.timezone h (getenv "TZ" p) = s
    | Android_pre21 => Libc.mktime h (Some ""%string) (portable t) = s
    | Posix => Libc.timegm h (portable t) = s
    end.

(** The host decodes local time by shifting the instant by the offset it
    reports in [tm_gmtoff]. *)
Definition local_decodes (h : Libc.host) (p : process) : Prop :=
  forall s buf, fits (Libc.time_t_bits h) s ->
    fst (LOCALTIME h p s buf) <> NULL ->
    let t := snd (LOCALTIME h p s buf) in
    fits 32 (Libc.tm_gmtoff t) /\
    fits 64 (s + Libc.tm_gmtoff t) /\
    fitsb 32 (Libc.tm_isdst t) = true /\
    is_Some (Ref.gmtime (s + Libc.tm_gmtoff t)) /\
    portable (Libc.set_tm_isdst 0 t) = portable (Ref.civil_tm (s + Libc.tm_gmtoff t)).

(** Two records that agree on everything but [tm_utcoff] and [tm_isdst]. *)
Definition same_but_utcoff_isdst (a b : rust_time_tm) : Prop :=
  tm_sec a = tm_sec b /\ tm_min a = tm_min b /\ tm_hour a = tm_hour b /\
  tm_mday a = tm_mday b /\ tm_mon a = tm_mon b /\ tm_year a = tm_year b /\
  tm_wday a = tm_wday b /\ tm_yday a = tm_yday b /\ tm_nsec a = tm_nsec b.

(** ** Concrete hosts, processes and records *)

(** The reference host on each build target, with a 64-bit and a 32-bit
    [time_t], and on old Android with an allocator that fails. *)
Definition glibc64 : Libc.host := Ref.host Posix 64 Ref.utc true.
Definition glibc32 : Libc.host := Ref.host Posix 32 Ref.utc true.
Definition mingw : Libc.host := Ref.host Win32_CRT 64 Ref.utc true.
Definition nacl : Libc.host := Ref.host NativeClient 64 Ref.utc true.
Definition msvc : Libc.host := Ref.host Win32_MSVC 64 Ref.utc true.
Definition bionic : Libc.host := Ref.host Android_pre21 64 Ref.utc true.
Definition bionic_oom : Libc.host := Ref.host Android_pre21 64 Ref.utc false.

(** A process without [TZ], and one running with [TZ=EST5EDT]. *)
Definition proc_unset : process := mk_process ∅ None.
Definition proc_eastern : process :=
  mk_process {[ "TZ"%string := "EST5EDT"%string ]} (Some "EST5EDT"%string).

(** Arbitrary previous contents of the automatic [struct tm] and of the
    caller's record. *)
Definition stack_tm : Libc.tm := Libc.mk_tm 11 12 13 14 15 16 17 18 19 20 21.
Definition stale : rust_time_tm := mk_rust_time_tm 7 7 7 7 7 7 7 7 7 7 7.

(** 2020-07-06T01:46:40Z, in the daylight-saving period of [Ref.us_eastern]. *)
Definition july_2020 : Z := 1594000000.

(** 2020-07-05 21:46:40, once flagged as daylight-saving time, once not. *)
Definition summer_dst : rust_time_tm := mk_rust_time_tm 40 46 21 5 6 120 0 186 1 0 0.
Definition summer_std : rust_time_tm := mk_rust_time_tm 40 46 21 5 6 120 0 186 0 0 0.

(** ** What the further properties speak about *)

(** The targets on which [GMTIME] and [LOCALTIME] yield a pointer (every one
    but the [_MSC_VER] branch), and those on which [utcoff] is read from the
    global [timezone] (lines 159-162). *)
Definition pointer_target (T : target) : bool :=
  match T with
  | Win32_MSVC => false
  | Win32_CRT | NativeClient | Android_pre21 | Posix => true
  end.

Definition timezone_target (T : target) : bool :=
  match T with
  | Win32_MSVC | Win32_CRT | NativeClient => true
  | Android_pre21 | Posix => false
  end.

(** What the automatic [struct tm] holds after a [GMTIME] that yielded [NULL],
    on the pointer branches: the wrapper of lines 117-122 returns before it
    stores anything, so the buffer is as it was; after [gmtime_r] it is as the
    host library left it. *)
Definition GMTIME_leaves (h : Libc.host) (clock : Z) (result : Libc.tm) : Libc.tm :=
  match Libc.target_of h with
  | Win32_CRT => result
  | Win32_MSVC | NativeClient | Android_pre21 | Posix =>
      Libc.gmtime_r_leaves h clock result
  end.

(** The time-zone rule that is loaded is the rule of the current [TZ]: no
    [setenv] went by without a [tzset]. *)
Definition rule_is_current (p : process) : Prop := tz_loaded p = getenv "TZ" p.

(** A process whose [TZ] was changed to [EST5EDT] after the rule of an empty
    [TZ] had been loaded. *)
Definition proc_stale : process :=
  mk_process {[ "TZ"%string := "EST5EDT"%string ]} (Some ""%string).

(** The nine standard members of a [rust_time_tm] hold an [int32_t] each. *)
Definition int32_fields_ok (r : rust_time_tm) : bool :=
  fitsb 32 (tm_sec r) && fitsb 32 (tm_min r) && fitsb 32 (tm_hour r) &&
  fitsb 32 (tm_mday r) && fitsb 32 (tm_mon r) && fitsb 32 (tm_year r) &&
  fitsb 32 (tm_wday r) && fitsb 32 (tm_yday r) && fitsb 32 (tm_isdst r).

(** The host's [mktime] undoes its local decoding: from the nine standard
    members that [LOCALTIME] produced for [s] it computes [s] again. *)
Definition mktime_inverts_localtime (h : Libc.host) (p : process) : Prop :=
  forall s buf, fits (Libc.time_t_bits h) s ->
    fst (LOCALTIME h p s buf) <> NULL ->
    Libc.ints_ok (snd (LOCALTIME h p s buf)) = true /\
    Libc.mktime h (tz_loaded p) (portable (snd (LOCALTIME h p s buf))) = s.


(** A process with [TZ=EST5EDT] and a second variable. *)
Definition proc_home : process :=
  mk_process (<[ "HOME"%string := "/root"%string ]>
                {[ "TZ"%string := "EST5EDT"%string ]})
             (Some "EST5EDT"%string).

(** 2020-01-01T12:00:00Z, outside the daylight-saving period. *)
Definition january_2020 : Z := 1577880000.

(** * Proofs *)

(** ** Integer conversions *)

Ltac div_lia := Z.to_euclidean_division_equations; lia.

Lemma fitsb_fits w x : fitsb w x = true <-> fits w x.
Proof.
  unfold fitsb, fits. rewrite andb_true_iff, Z.leb_le, Z.ltb_lt. tauto.
Qed.

Lemma fits_pos w x : fits w x -> 0 < w.
Proof.
  unfold fits. intros H. destruct (Z.ltb_spec 0 w) as [Hw | Hw]; [assumption |].
  rewrite (Z.pow_neg_r 2 (w - 1)) in H by lia. lia.
Qed.

Lemma wrap_fits w x : 0 < w -> fits w x -> wrap w x = x.
Proof.
  intros Hw [Hlo Hhi]. unfold wrap.
  assert (H2 : 2 ^ w = 2 * 2 ^ (w - 1)).
  { replace w with (Z.succ (w - 1)) at 1 by lia. apply Z.pow_succ_r. lia. }
  rewrite Z.mod_small; lia.
Qed.

Lemma wrap_range w x : 0 < w -> fits w (wrap w x).
Proof.
  intros Hw. unfold wrap, fits.
  assert (H2 : 2 ^ w = 2 * 2 ^ (w - 1)).
  { replace w with (Z.succ (w - 1)) at 1 by lia. apply Z.pow_succ_r. lia. }
  assert (0 < 2 ^ (w - 1)) by (apply Z.pow_pos_nonneg; lia).
  pose proof (Z.mod_pos_bound (x + 2 ^ (w - 1)) (2 ^ w)). lia.
Qed.

Lemma wrap_idem w x : 0 < w -> wrap w (wrap w x) = wrap w x.
Proof. intros Hw. apply wrap_fits; [assumption | apply wrap_range; assumption]. Qed.

Lemma to_int32_fits x : fitsb 32 x = true -> to_int32 x = x.
Proof. intros H. apply wrap_fits; [lia | apply fitsb_fits; assumption]. Qed.

Lemma to_int_to_int32 x : to_int (to_int32 x) = to_int32 x.
Proof. apply wrap_idem. lia. Qed.

Lemma to_time_t_fits h sec : fits (Libc.time_t_bits h) sec -> to_time_t h sec = sec.
Proof. intros H. apply wrap_fits; [eapply fits_pos; eassumption | assumption]. Qed.

Lemma fitsb_small x : -1000 <= x <= 1000 -> fitsb 32 x = true.
Proof. intros H. apply fitsb_fits. unfold fits. lia. Qed.

(** ** The field copies *)

Lemma tm_to_rust_tm_eq t out utcoff nsec :
  tm_to_rust_tm t out utcoff nsec =
  mk_rust_time_tm (to_int32 (Libc.tm_sec t)) (to_int32 (Libc.tm_min t))
    (to_int32 (Libc.tm_hour t)) (to_int32 (Libc.tm_mday t))
    (to_int32 (Libc.tm_mon t)) (to_int32 (Libc.tm_year t))
    (to_int32 (Libc.tm_wday t)) (to_int32 (Libc.tm_yday t))
    (to_int32 (Libc.tm_isdst t)) utcoff nsec.
Proof. reflexivity. Qed.

Lemma rust_time_tm_to_tm_eq r :
  rust_time_tm_to_tm r =
  Libc.mk_tm (to_int (tm_sec r)) (to_int (tm_min r)) (to_int (tm_hour r))
    (to_int (tm_mday r)) (to_int (tm_mon r)) (to_int (tm_year r))
    (to_int (tm_wday r)) (to_int (tm_yday r)) (to_int (tm_isdst r)) 0 0.
Proof. reflexivity. Qed.

Lemma ints_ok_portable t : Libc.ints_ok (portable t) = Libc.ints_ok t.
Proof. reflexivity. Qed.

Lemma ints_ok_set_tm_isdst t :
  fitsb 32 (Libc.tm_isdst t) = true ->
  Libc.ints_ok t = Libc.ints_ok (Libc.set_tm_isdst 0 t).
Proof.
  intros H. unfold Libc.ints_ok. cbn [Libc.set_tm_isdst Libc.tm_sec Libc.tm_min
    Libc.tm_hour Libc.tm_mday Libc.tm_mon Libc.tm_year Libc.tm_wday Libc.tm_yday
    Libc.tm_isdst]. rewrite H. reflexivity.
Qed.

(** A [struct tm] goes through [rust_time_tm] and back with its nine standard
    members intact. *)
Lemma tm_round_trip t out utcoff nsec :
  Libc.ints_ok t = true ->
  rust_time_tm_to_tm (tm_to_rust_tm t out utcoff nsec) = portable t.
Proof.
  unfold Libc.ints_ok. rewrite !andb_true_iff.
  intros [[[[[[[[H1 H2] H3] H4] H5] H6] H7] H8] H9].
  rewrite rust_time_tm_to_tm_eq, tm_to_rust_tm_eq. cbn [tm_sec tm_min tm_hour
    tm_mday tm_mon tm_year tm_wday tm_yday tm_isdst]. unfold portable.
  rewrite !to_int_to_int32, !to_int32_fits by assumption. reflexivity.
Qed.

Lemma tm_to_rust_tm_portable t out utcoff nsec :
  tm_to_rust_tm (portable t) out utcoff nsec = tm_to_rust_tm t out utcoff nsec.
Proof. reflexivity. Qed.

Lemma tm_utcoff_tm_to_rust_tm t out utcoff nsec :
  tm_utcoff (tm_to_rust_tm t out utcoff nsec) = utcoff.
Proof. reflexivity. Qed.

(** [rust_time_timegm] does not read [tm_nsec] nor [tm_utcoff]. *)
Lemma rust_time_tm_to_tm_set_tm_nsec v r :
  rust_time_tm_to_tm (set_tm_nsec v r) = rust_time_tm_to_tm r.
Proof. reflexivity. Qed.

Lemma rust_time_tm_to_tm_set_tm_utcoff v r :
  rust_time_tm_to_tm (set_tm_utcoff v r) = rust_time_tm_to_tm r.
Proof. reflexivity. Qed.

Lemma rust_time_tm_to_tm_same a b :
  same_but_utcoff_isdst a b -> tm_isdst a = tm_isdst b ->
  rust_time_tm_to_tm a = rust_time_tm_to_tm b.
Proof.
  intros (H1 & H2 & H3 & H4 & H5 & H6 & H7 & H8 & _) H9.
  rewrite !rust_time_tm_to_tm_eq. congruence.
Qed.

Lemma rust_time_tm_to_tm_isdst a b :
  same_but_utcoff_isdst a b ->
  rust_time_tm_to_tm a =
    Libc.set_tm_isdst (to_int (tm_isdst a)) (rust_time_tm_to_tm b).
Proof.
  intros (H1 & H2 & H3 & H4 & H5 & H6 & H7 & H8 & _).
  rewrite !rust_time_tm_to_tm_eq. unfold Libc.set_tm_isdst.
  cbn [Libc.tm_sec Libc.tm_min Libc.tm_hour Libc.tm_mday Libc.tm_mon
       Libc.tm_year Libc.tm_wday Libc.tm_yday Libc.tm_gmtoff Libc.tm_zone].
  congruence.
Qed.

(** ** The reference calendar *)

Lemma days_from_civil_mday y m d :
  Ref.days_from_civil y m d = Ref.days_from_civil y m 1 + d - 1.
Proof. unfold Ref.days_from_civil. cbv zeta. lia. Qed.

Lemma doe_range z : 0 <= Ref.doe_of z < 146097.
Proof. unfold Ref.doe_of, Ref.era_of. div_lia. Qed.

Lemma yoe_range doe : 0 <= doe < 146097 -> 0 <= Ref.yoe_of doe <= 399.
Proof. intros H. unfold Ref.yoe_of. div_lia. Qed.

Lemma doy_range doe : 0 <= doe < 146097 -> 0 <= Ref.doy_of doe <= 365.
Proof. intros H. unfold Ref.doy_of, Ref.yoe_of. div_lia. Qed.

Lemma mp_range doy : 0 <= doy <= 365 -> 0 <= Ref.mp_of doy <= 11.
Proof. intros H. unfold Ref.mp_of. div_lia. Qed.

Lemma mday_range doy :
  0 <= doy <= 365 -> 1 <= doy - (153 * Ref.mp_of doy + 2) / 5 + 1 <= 31.
Proof. intros H. unfold Ref.mp_of. div_lia. Qed.

Lemma civil_from_days_range z :
  let '(y, m, d) := Ref.civil_from_days z in 1 <= m <= 12 /\ 1 <= d <= 31.
Proof.
  unfold Ref.civil_from_days. cbv zeta.
  pose proof (doy_range _ (doe_range z)) as Hdoy.
  pose proof (mp_range _ Hdoy). pose proof (mday_range _ Hdoy).
  destruct (Ref.mp_of (Ref.doy_of (Ref.doe_of z)) <? 10) eqn:E;
    [apply Z.ltb_lt in E | apply Z.ltb_ge in E]; lia.
Qed.

(** Every day number is the day number of its civil date. *)
Lemma days_from_civil_inv z :
  let '(y, m, d) := Ref.civil_from_days z in Ref.days_from_civil y m d = z.
Proof.
  unfold Ref.civil_from_days, Ref.days_from_civil. cbv zeta.
  pose proof (doe_range z) as Hdoe.
  pose proof (yoe_range _ Hdoe) as Hyoe.
  pose proof (mp_range _ (doy_range _ Hdoe)) as Hmp.
  set (doe := Ref.doe_of z) in *. set (yoe := Ref.yoe_of doe) in *.
  set (era := Ref.era_of z). set (doy := Ref.doy_of doe) in *.
  set (mp := Ref.mp_of doy) in *.
  assert (Hera : (yoe + era * 400) / 400 = era) by div_lia.
  assert (Hz : era * 146097 + doe - 719468 = z) by (subst doe era; unfold Ref.doe_of; lia).
  assert (Hd : yoe * 365 + yoe / 4 - yoe / 100 + doy = doe)
    by (subst doy yoe; unfold Ref.doy_of; lia).
  destruct (mp <? 10) eqn:E; [apply Z.ltb_lt in E | apply Z.ltb_ge in E].
  - replace (mp + 3 <=? 2) with false by (symmetry; apply Z.leb_gt; lia).
    rewrite Hera.
    replace (yoe + era * 400 - era * 400) with yoe by lia.
    replace (mp + 3 - 3) with mp by lia. lia.
  - replace (mp - 9 <=? 2) with true by (symmetry; apply Z.leb_le; lia).
    replace (yoe + era * 400 + 1 - 1) with (yoe + era * 400) by lia.
    rewrite Hera.
    replace (yoe + era * 400 - era * 400) with yoe by lia.
    replace (mp - 9 + 9) with mp by lia. lia.
Qed.

(** No day of a year is before its first of January, or more than a year and
    a month after it (the bound allows for any day number up to 31). *)
Lemma yday_range y m d :
  1 <= m <= 12 -> 1 <= d <= 31 ->
  0 <= Ref.days_from_civil y m d - Ref.days_from_civil y 1 1 <= 396.
Proof.
  intros Hm Hd. unfold Ref.days_from_civil. cbv zeta.
  replace (1 <=? 2) with true by reflexivity.
  destruct (m <=? 2) eqn:E; [apply Z.leb_le in E | apply Z.leb_gt in E].
  - div_lia.
  - div_lia.
Qed.

Lemma civil_tm_fields s :
  let t := Ref.civil_tm s in
  0 <= Libc.tm_sec t <= 59 /\ 0 <= Libc.tm_min t <= 59 /\
  0 <= Libc.tm_hour t <= 23 /\ 1 <= Libc.tm_mday t <= 31 /\
  0 <= Libc.tm_mon t <= 11 /\ 0 <= Libc.tm_wday t <= 6 /\
  0 <= Libc.tm_yday t <= 396 /\ Libc.tm_isdst t = 0.
Proof.
  unfold Ref.civil_tm. cbv zeta.
  pose proof (civil_from_days_range (s / 86400)) as Hr.
  pose proof (days_from_civil_inv (s / 86400)) as Hi.
  destruct (Ref.civil_from_days (s / 86400)) as [[y m] d].
  cbn [Libc.tm_sec Libc.tm_min Libc.tm_hour Libc.tm_mday Libc.tm_mon
       Libc.tm_wday Libc.tm_yday Libc.tm_isdst].
  pose proof (yday_range y m d (proj1 Hr) (proj2 Hr)) as Hy.
  rewrite Hi in Hy.
  repeat split; try lia; try div_lia.
Qed.

Lemma civil_tm_year_bound s :
  fitsb 32 (Libc.tm_year (Ref.civil_tm s)) = true -> fits 63 s.
Proof.
  rewrite fitsb_fits. unfold fits, Ref.civil_tm. cbv zeta.
  unfold Ref.civil_from_days. cbv zeta.
  pose proof (doe_range (s / 86400)) as Hdoe.
  pose proof (yoe_range _ Hdoe) as Hyoe.
  set (doe := Ref.doe_of (s / 86400)) in *.
  set (yoe := Ref.yoe_of doe) in *.
  assert (Hz : Ref.era_of (s / 86400) * 146097 + doe - 719468 = s / 86400)
    by (subst doe; unfold Ref.doe_of; lia).
  set (era := Ref.era_of (s / 86400)) in *.
  destruct (Ref.mp_of (Ref.doy_of doe) <? 10);
    [destruct (Ref.mp_of (Ref.doy_of doe) + 3 <=? 2) |
     destruct (Ref.mp_of (Ref.doy_of doe) - 9 <=? 2)];
    cbn [Libc.tm_year]; change (2 ^ (32 - 1)) with 2147483648;
    change (2 ^ (63 - 1)) with 4611686018427387904; intros Hy; div_lia.
Qed.

(** The reference [timegm] undoes the reference decoding, at every instant. *)
Lemma timegm_civil_tm s : Ref.timegm (Ref.civil_tm s) = s.
Proof.
  unfold Ref.timegm, Ref.civil_tm. cbv zeta.
  pose proof (civil_from_days_range (s / 86400)) as Hr.
  pose proof (days_from_civil_inv (s / 86400)) as Hi.
  destruct (Ref.civil_from_days (s / 86400)) as [[y m] d].
  cbn [Libc.tm_sec Libc.tm_min Libc.tm_hour Libc.tm_mday Libc.tm_mon Libc.tm_year].
  replace (y - 1900 + 1900 + (m - 1) / 12) with y by div_lia.
  replace ((m - 1) mod 12 + 1) with m by div_lia.
  rewrite <- days_from_civil_mday, Hi. div_lia.
Qed.

Lemma timegm_portable t : Ref.timegm (portable t) = Ref.timegm t.
Proof. reflexivity. Qed.

Lemma timegm_portable_isdst t :
  Ref.timegm (portable t) = Ref.timegm (portable (Libc.set_tm_isdst 0 t)).
Proof. reflexivity. Qed.

Lemma gmtime_Some s t : Ref.gmtime s = Some t ->
  t = Ref.civil_tm s /\ Libc.ints_ok t = true.
Proof.
  unfold Ref.gmtime. cbv zeta.
  destruct (fitsb 32 (Libc.tm_year (Ref.civil_tm s))) eqn:Hy; [| discriminate].
  intros [= <-]. split; [reflexivity |].
  destruct (civil_tm_fields s) as (H1 & H2 & H3 & H4 & H5 & H6 & H7 & H8).
  unfold Libc.ints_ok. rewrite Hy, H8.
  rewrite !fitsb_small by lia. reflexivity.
Qed.

Lemma gmtime_timegm s t : Ref.gmtime s = Some t -> Ref.timegm (portable t) = s.
Proof.
  intros H. apply gmtime_Some in H as [-> _].
  rewrite timegm_portable. apply timegm_civil_tm.
Qed.

(** The reference agrees with the dated scenarios of the spec: 2000-01-01
    and 1969-12-31 at midnight, and the flip of [tm_isdst] and of the offset
    across the spring transition of [Ref.us_eastern]. *)
Example gmtime_2000 :
  portable <$> Ref.gmtime 946684800 = Some (Libc.mk_tm 0 0 0 1 0 100 6 0 0 0 0).
Proof. vm_compute. reflexivity. Qed.

Example gmtime_1969 :
  portable <$> Ref.gmtime (-86400) = Some (Libc.mk_tm 0 0 0 31 11 69 3 364 0 0 0).
Proof. vm_compute. reflexivity. Qed.

Example localtime_spring_forward :
  Ref.localtime Ref.us_eastern 1583650799 =
    Some (Libc.mk_tm 59 59 1 8 2 120 0 67 0 (-18000) nonnull) /\
  Ref.localtime Ref.us_eastern 1583650801 =
    Some (Libc.mk_tm 1 0 3 8 2 120 0 67 1 (-14400) nonnull).
Proof. split; vm_compute; reflexivity. Qed.

(** ** The fallback [timegm] and the [TZ] variable *)

Lemma timegm_eq h tm p :
  timegm h tm p =
  (Libc.mktime h (Some ""%string) tm,
   tzset (match getenv "TZ" p with
          | Some s =>
              match Libc.strdup h s with
              | Some s' => setenv "TZ" s' (tzset (setenv "TZ" "" p))
              | None => unsetenv "TZ" (tzset (setenv "TZ" "" p))
              end
          | None => unsetenv "TZ" (tzset (setenv "TZ" "" p))
          end)).
Proof.
  unfold timegm. cbv zeta. f_equal.
  - unfold tzset, setenv. cbn [tz_loaded environ]. rewrite lookup_insert_eq.
    reflexivity.
  - destruct (getenv "TZ" p) as [s |]; [destruct (Libc.strdup h s) |]; reflexivity.
Qed.

(** When the copy of the old value can be allocated (or [TZ] was not set),
    the whole environment is what it was, and the time-zone rule is loaded
    again from it. *)
Lemma timegm_restores_TZ h tm p :
  (forall s, getenv "TZ" p = Some s -> Libc.strdup h s = Some s) ->
  environ (snd (timegm h tm p)) = environ p /\
  tz_loaded (snd (timegm h tm p)) = getenv "TZ" p.
Proof.
  intros Hdup. rewrite timegm_eq. cbn [snd]. unfold getenv in *.
  destruct (environ p !! "TZ"%string) as [s |] eqn:E.
  - rewrite (Hdup s eq_refl). unfold tzset, setenv. cbn [environ tz_loaded].
    rewrite insert_insert_eq, (insert_id _ _ _ E). split; [reflexivity | exact E].
  - unfold tzset, unsetenv, setenv. cbn [environ tz_loaded].
    rewrite delete_insert_eq, (delete_id _ _ E). split; [reflexivity | exact E].
Qed.

Example timegm_restores_TZ_set :
  environ (snd (timegm bionic (rust_time_tm_to_tm summer_std) proc_eastern))
  = environ proc_eastern.
Proof.
  apply (timegm_restores_TZ bionic). intros s _. reflexivity.
Qed.

Example timegm_restores_TZ_unset :
  environ (snd (timegm bionic (rust_time_tm_to_tm summer_std) proc_unset))
  = environ proc_unset.
Proof.
  apply (timegm_restores_TZ bionic). intros s _. reflexivity.
Qed.

(** C9 fails when [strdup] fails: [tz] is then null although [TZ] was set, the
    final test takes the [unsetenv] branch, and the process leaves [timegm]
    without the [TZ] it entered with. *)
Theorem timegm_loses_TZ_when_strdup_fails :
  let tm := rust_time_tm_to_tm summer_std in
  getenv "TZ" proc_eastern = Some "EST5EDT"%string /\
  Libc.strdup bionic_oom "EST5EDT" = None /\
  getenv "TZ" (snd (timegm bionic_oom tm proc_eastern)) = None /\
  tz_loaded (snd (timegm bionic_oom tm proc_eastern)) = None /\
  fst (timegm bionic_oom tm proc_eastern) = fst (timegm bionic tm proc_eastern).
Proof.
  cbv zeta. rewrite !timegm_eq. cbn [fst snd].
  repeat split; vm_compute; reflexivity.
Qed.

(** ** The reference hosts conform *)

Lemma ref_utc_decodes T bits sys heap :
  T <> Win32_MSVC -> utc_decodes (Ref.host T bits sys heap).
Proof.
  intros HT s t buf _ Hs. unfold GMTIME, GMTIME_crt. cbn [Ref.host Libc.target_of
    Libc.gmtime Libc.gmtime_r].
  destruct T; try contradiction; rewrite Hs; reflexivity.
Qed.

(** A host whose calls decode and encode UTC as the reference calendar does
    on the instants it supports meets [utc_decodes] and [utc_encodes], on
    every target: through the wrappers of lines 117-128, through
    [mktime(...) - _timezone] and through the fallback [timegm]. *)
Lemma utc_decodes_from_host h : host_decodes_utc h -> utc_decodes h.
Proof.
  intros H s t buf Hfit Ht. specialize (H s t Hfit Ht).
  unfold GMTIME, GMTIME_crt. destruct (Libc.target_of h).
  - apply H.
  - destruct H as (t' & -> & Ht'). exact Ht'.
  - destruct H as (t' & -> & Ht'). exact Ht'.
  - destruct H as (t' & -> & Ht'). exact Ht'.
  - destruct H as (t' & -> & Ht'). exact Ht'.
Qed.

Lemma utc_encodes_from_host h p : host_encodes_utc h p -> utc_encodes h p.
Proof.
  intros H s t Hfit Ht. specialize (H s t Hfit Ht).
  rewrite (gmtime_timegm s t Ht). unfold TIMEGM.
  destruct (Libc.target_of h).
  - exact H.
  - cbn [mktime tzset tz_loaded environ fst]. unfold getenv in H. rewrite H.
    exact (to_time_t_fits h s Hfit).
  - cbn [mktime tzset tz_loaded environ fst]. unfold getenv in H. rewrite H.
    exact (to_time_t_fits h s Hfit).
  - rewrite timegm_eq. exact H.
  - exact H.
Qed.

Lemma bounded_fits bits r : fits bits r -> Ref.bounded bits r = r.
Proof.
  intros H. unfold Ref.bounded. rewrite (proj2 (fitsb_fits bits r) H). reflexivity.
Qed.

Lemma ref_utc_encodes_posix bits sys heap p :
  utc_encodes (Ref.host Posix bits sys heap) p.
Proof.
  intros s t Hfit Ht. unfold TIMEGM. cbn [Ref.host Libc.target_of Libc.timegm fst].
  apply bounded_fits. rewrite (gmtime_timegm s t Ht). exact Hfit.
Qed.

Lemma mktime_utc t : Ref.mktime Ref.utc t = Ref.timegm t.
Proof.
  unfold Ref.mktime. cbn [Ref.utc Ref.std_offset Ref.dst_saving Ref.dst_active].
  destruct (0 <? Libc.tm_isdst t); [lia |].
  destruct (Libc.tm_isdst t =? 0); lia.
Qed.

(** The reference host with a 32-bit [time_t] reports -1 for the year 2100,
    which its [time_t] cannot hold, and still encodes every instant it
    supports. *)
Example ref_timegm_overflow :
  Libc.timegm glibc32 (Libc.mk_tm 0 0 0 1 0 200 0 0 0 0 0) = -1 /\
  utc_encodes glibc32 proc_unset.
Proof. split; [vm_compute; reflexivity | apply ref_utc_encodes_posix]. Qed.

Lemma ref_utc_encodes_android bits sys heap p :
  utc_encodes (Ref.host Android_pre21 bits sys heap) p.
Proof.
  intros s t Hfit Ht. unfold TIMEGM. cbn [Ref.host Libc.target_of].
  rewrite timegm_eq. cbn [fst Ref.host Libc.mktime Ref.zone_of String.eqb].
  rewrite (mktime_utc (portable t)). apply bounded_fits.
  rewrite (gmtime_timegm s t Ht). exact Hfit.
Qed.

Lemma ref_local_decodes_posix bits heap p :
  bits <= 64 -> local_decodes (Ref.host Posix bits Ref.utc heap) p.
Proof.
  intros Hbits s buf Hfit. unfold LOCALTIME.
  cbn [Ref.host Libc.target_of Libc.localtime_r].
  unfold Ref.localtime. cbv zeta.
  set (z := Ref.zone_of Ref.utc (tz_loaded p)).
  assert (Hoff : -18000 <= Ref.offset_at z s <= 0).
  { unfold Ref.offset_at, z, Ref.zone_of. destruct (tz_loaded p) as [tz |];
      [destruct (String.eqb tz "EST5EDT") |];
      cbn [Ref.us_eastern Ref.utc Ref.std_offset Ref.dst_saving Ref.dst_active];
      try lia.
    match goal with |- context [if ?b then _ else _] => destruct b end; lia. }
  destruct (Ref.gmtime (s + Ref.offset_at z s)) as [c |] eqn:Hc;
    [| cbn [fst]; intros E; contradiction E; reflexivity].
  intros _. cbn [snd Libc.tm_gmtoff Libc.tm_isdst].
  destruct (gmtime_Some _ _ Hc) as [-> Hcok].
  assert (H63 : fits 63 (s + Ref.offset_at z s)).
  { apply civil_tm_year_bound. unfold Ref.gmtime in Hc. cbv zeta in Hc.
    destruct (fitsb 32 (Libc.tm_year (Ref.civil_tm (s + Ref.offset_at z s))));
      [reflexivity | discriminate]. }
  split; [unfold fits; lia |].
  split; [unfold fits in *; change (2 ^ (64 - 1)) with (2 * 2 ^ (63 - 1)); lia |].
  split; [destruct (Ref.dst_active z s); reflexivity |].
  split; [rewrite Hc; eexists; reflexivity |].
  destruct (civil_tm_fields (s + Ref.offset_at z s)) as (_ & _ & _ & _ & _ & _ & _ & H8).
  unfold portable, Libc.set_tm_isdst.
  cbn [Libc.tm_sec Libc.tm_min Libc.tm_hour Libc.tm_mday Libc.tm_mon
       Libc.tm_year Libc.tm_wday Libc.tm_yday Libc.tm_isdst].
  rewrite H8. reflexivity.
Qed.

(** ** Decoding in UTC *)

Lemma rust_time_gmtime_eq h sec nsec tm0 out :
  rust_time_gmtime h sec nsec tm0 out =
  tm_to_rust_tm (snd (GMTIME h (to_time_t h sec) tm0)) out 0 nsec.
Proof.
  unfold rust_time_gmtime. cbv zeta.
  destruct (GMTIME h (to_time_t h sec) tm0) as [r t]. reflexivity.
Qed.

(** On a supported instant and a conforming host the decoded record holds the
    reference fields. *)
Lemma rust_time_gmtime_conforming h sec nsec tm0 out t :
  utc_decodes h -> fits (Libc.time_t_bits h) sec -> Ref.gmtime sec = Some t ->
  rust_time_gmtime h sec nsec tm0 out = tm_to_rust_tm t out 0 nsec.
Proof.
  intros Hdec Hfit Ht.
  rewrite rust_time_gmtime_eq, to_time_t_fits by assumption.
  rewrite <- tm_to_rust_tm_portable, (Hdec sec t tm0 Hfit Ht).
  apply tm_to_rust_tm_portable.
Qed.

(** C4: the record written by [rust_time_gmtime] has [tm_utcoff] zero, for
    every instant, host and previous content of the buffers. *)
Theorem rust_time_gmtime_utcoff_zero h sec nsec tm0 out :
  tm_utcoff (rust_time_gmtime h sec nsec tm0 out) = 0.
Proof. rewrite rust_time_gmtime_eq. reflexivity. Qed.

(** Line 148 does not test what [GMTIME] returns: when the host call fails
    the record is filled from the automatic [struct tm] as the failed call
    left it.  On the reference POSIX host that is a time of day, a weekday
    and a truncated year next to the [tm_mday], [tm_mon] and [tm_yday] the
    stack held; behind the wrapper of lines 117-122 it is what the stack
    held. *)
Example rust_time_gmtime_unchecked :
  fst (GMTIME glibc64 (2 ^ 62) stack_tm) = NULL /\
  rust_time_gmtime glibc64 (2 ^ 62) 0 stack_tm stale =
    mk_rust_time_tm 4 45 7 14 15 109624319 2 18 0 0 0 /\
  fst (GMTIME mingw (2 ^ 62) stack_tm) = NULL /\
  rust_time_gmtime mingw (2 ^ 62) 0 stack_tm stale =
    mk_rust_time_tm 11 12 13 14 15 16 17 18 19 0 0.
Proof. repeat split; vm_compute; reflexivity. Qed.

(** C6: on a host that decodes UTC as the reference calendar does,
    [rust_time_gmtime] at seconds 0 and nanoseconds 0 writes year 70, month 0,
    day of month 1, hour, minute and second 0, weekday 4 and day of year 0
    (and a zero [tm_isdst], [tm_utcoff] and [tm_nsec]). *)
Theorem rust_time_gmtime_epoch h tm0 out :
  utc_decodes h -> fits (Libc.time_t_bits h) 0 ->
  rust_time_gmtime h 0 0 tm0 out =
    {| tm_sec := 0; tm_min := 0; tm_hour := 0; tm_mday := 1; tm_mon := 0;
       tm_year := 70; tm_wday := 4; tm_yday := 0; tm_isdst := 0;
       tm_utcoff := 0; tm_nsec := 0 |}.
Proof.
  intros Hdec Hfit.
  rewrite (rust_time_gmtime_conforming h 0 0 tm0 out (Ref.civil_tm 0));
    [reflexivity | assumption | assumption | reflexivity].
Qed.

Lemma rust_time_gmtime_epoch_witness :
  (utc_decodes glibc64 /\ fits (Libc.time_t_bits glibc64) 0) /\
  rust_time_gmtime glibc64 0 0 stack_tm stale =
    {| tm_sec := 0; tm_min := 0; tm_hour := 0; tm_mday := 1; tm_mon := 0;
       tm_year := 70; tm_wday := 4; tm_yday := 0; tm_isdst := 0;
       tm_utcoff := 0; tm_nsec := 0 |}.
Proof.
  assert (Hd : utc_decodes glibc64).
  { intros s t buf _ Ht. unfold GMTIME. simpl. rewrite Ht. reflexivity. }
  assert (Hf : fits (Libc.time_t_bits glibc64) 0).
  { apply fitsb_fits. reflexivity. }
  split; [split; assumption |].
  exact (rust_time_gmtime_epoch glibc64 stack_tm stale Hd Hf).
Defined.

(** C3 (as amended): [rust_time_gmtime] has no failure result and returns a
    record for every input.  Its [sec] is first converted to [time_t], so an
    instant that [time_t] cannot hold is decoded as the instant it wraps to
    modulo [2 ^ time_t_bits]; for an instant in the supported range of a
    conforming host the record holds the calendar fields of that instant. *)
Theorem rust_time_gmtime_wraps_to_time_t h sec nsec tm0 out :
  0 < Libc.time_t_bits h ->
  rust_time_gmtime h sec nsec tm0 out =
    rust_time_gmtime h (wrap (Libc.time_t_bits h) sec) nsec tm0 out /\
  (utc_decodes h -> supported h sec ->
   rust_time_gmtime h sec nsec tm0 out =
     tm_to_rust_tm (Ref.civil_tm sec) out 0 nsec).
Proof.
  intros Hw. split.
  - rewrite !rust_time_gmtime_eq. unfold to_time_t.
    rewrite wrap_idem by assumption. reflexivity.
  - intros Hdec (_ & Hfit & [t Ht]).
    rewrite (rust_time_gmtime_conforming h sec nsec tm0 out t) by assumption.
    apply gmtime_Some in Ht as [-> _]. reflexivity.
Qed.

Lemma rust_time_gmtime_wraps_to_time_t_witness :
  0 < Libc.time_t_bits glibc32 /\
  (rust_time_gmtime glibc32 (2 ^ 32 + 86400) 9 stack_tm stale =
     rust_time_gmtime glibc32 (wrap (Libc.time_t_bits glibc32) (2 ^ 32 + 86400))
       9 stack_tm stale /\
   (utc_decodes glibc32 -> supported glibc32 (2 ^ 32 + 86400) ->
    rust_time_gmtime glibc32 (2 ^ 32 + 86400) 9 stack_tm stale =
      tm_to_rust_tm (Ref.civil_tm (2 ^ 32 + 86400)) stale 0 9)).
Proof.
  split; [reflexivity |].
  exact (rust_time_gmtime_wraps_to_time_t glibc32 (2 ^ 32 + 86400) 9
           stack_tm stale eq_refl).
Defined.

(** C3 (as stated) fails: with a 32-bit [time_t] the instant [2 ^ 32], which
    [time_t] cannot hold, is decoded exactly as the Epoch is.  The record is
    neither an error (there is none to return) nor the decoding of the largest
    [time_t], which a clamp would give. *)
Lemma rust_time_gmtime_wraparound :
  ~ fits (Libc.time_t_bits glibc32) (2 ^ 32) /\
  rust_time_gmtime glibc32 (2 ^ 32) 0 stack_tm stale =
    rust_time_gmtime glibc32 0 0 stack_tm stale /\
  rust_time_gmtime glibc32 (2 ^ 32) 0 stack_tm stale =
    mk_rust_time_tm 0 0 0 1 0 70 4 0 0 0 0 /\
  rust_time_gmtime glibc32 (2 ^ 32) 0 stack_tm stale <>
    rust_time_gmtime glibc32 (2 ^ 31 - 1) 0 stack_tm stale.
Proof.
  split; [| split; [| split]].
  - rewrite <- fitsb_fits. vm_compute. discriminate.
  - vm_compute. reflexivity.
  - vm_compute. reflexivity.
  - vm_compute. discriminate.
Qed.

(** ** Encoding in UTC *)

Lemma rust_time_timegm_eq h r p :
  rust_time_timegm h r p =
  (to_int64 (fst (TIMEGM h (rust_time_tm_to_tm r) p)),
   snd (TIMEGM h (rust_time_tm_to_tm r) p)).
Proof.
  unfold rust_time_timegm. cbv zeta.
  destruct (TIMEGM h (rust_time_tm_to_tm r) p) as [x q]. reflexivity.
Qed.

(** Encoding a record that was filled from a [struct tm]. *)
Lemma rust_time_timegm_of_tm h p t out utcoff nsec :
  Libc.ints_ok t = true ->
  fst (rust_time_timegm h (tm_to_rust_tm t out utcoff nsec) p)
  = to_int64 (fst (TIMEGM h (portable t) p)).
Proof.
  intros Hok. rewrite rust_time_timegm_eq.
  rewrite (tm_round_trip t out utcoff nsec Hok). reflexivity.
Qed.

(** C5 (as amended): [rust_time_gmtime] stores the input nanoseconds unchanged
    in [tm_nsec].  [rust_time_timegm] returns epoch seconds only: its result
    is the same whatever [tm_nsec] holds, and the nanoseconds stay in the
    caller's record. *)
Theorem nanoseconds_pass_through_decoding h p sec nsec tm0 out r v :
  tm_nsec (rust_time_gmtime h sec nsec tm0 out) = nsec /\
  rust_time_timegm h (set_tm_nsec v r) p = rust_time_timegm h r p.
Proof.
  split.
  - rewrite rust_time_gmtime_eq. reflexivity.
  - unfold rust_time_timegm. rewrite rust_time_tm_to_tm_set_tm_nsec. reflexivity.
Qed.

(** C5 (as stated) fails: two records that differ in [tm_nsec] only are
    encoded to the same value, so nothing in the value returned by
    [rust_time_timegm] is the nanosecond field of its input. *)
Lemma rust_time_timegm_returns_no_nanoseconds :
  ~ exists fraction_of : Z -> Z,
      forall r, 0 <= tm_nsec r <= 999999999 ->
        fraction_of (fst (rust_time_timegm glibc64 r proc_unset)) = tm_nsec r.
Proof.
  intros [f Hf].
  pose proof (Hf summer_std ltac:(cbn; lia)) as H0.
  pose proof (Hf (set_tm_nsec 500 summer_std) ltac:(cbn; lia)) as H1.
  vm_compute in H0, H1. congruence.
Qed.

(** [rust_time_timegm] never reads [tm_utcoff]: on every target, two records
    that differ in [tm_utcoff] only are encoded alike. *)
Lemma rust_time_timegm_ignores_utcoff h p a b :
  same_but_utcoff_isdst a b -> tm_isdst a = tm_isdst b ->
  rust_time_timegm h a p = rust_time_timegm h b p.
Proof.
  intros Hsame Hdst. unfold rust_time_timegm.
  rewrite (rust_time_tm_to_tm_same a b Hsame Hdst). reflexivity.
Qed.

(** [tm_isdst] is copied into the [struct tm] handed to the host (line 91).
    Where [TIMEGM] is the host's [timegm] or [_mkgmtime64], and that call
    does not look at [tm_isdst], two records that differ in [tm_utcoff] and
    [tm_isdst] only are encoded alike. *)
Lemma rust_time_timegm_ignores_isdst_timegm h p a b :
  (Libc.target_of h = Posix /\
   forall t v, Libc.timegm h (Libc.set_tm_isdst v t) = Libc.timegm h t) \/
  (Libc.target_of h = Win32_MSVC /\
   forall t v, Libc._mkgmtime64 h (Libc.set_tm_isdst v t) = Libc._mkgmtime64 h t) ->
  same_but_utcoff_isdst a b ->
  rust_time_timegm h a p = rust_time_timegm h b p.
Proof.
  intros HT Hsame. unfold rust_time_timegm, TIMEGM.
  rewrite (rust_time_tm_to_tm_isdst a b Hsame).
  destruct HT as [[-> Hign] | [-> Hign]]; rewrite Hign; reflexivity.
Qed.

(** On old Android [TIMEGM] is the fallback, so the value is the one the
    host's [mktime] computes, under the rule of an empty [TZ], from a
    [struct tm] that carries the caller's [tm_isdst]. *)
Lemma rust_time_timegm_android_mktime h r p :
  Libc.target_of h = Android_pre21 ->
  fst (rust_time_timegm h r p) =
    to_int64 (Libc.mktime h (Some ""%string) (rust_time_tm_to_tm r)) /\
  Libc.tm_isdst (rust_time_tm_to_tm r) = to_int (tm_isdst r).
Proof.
  intros HT. rewrite rust_time_timegm_eq. unfold TIMEGM. rewrite HT, timegm_eq.
  split; reflexivity.
Qed.

(** C7 fails where [TIMEGM] is [mktime(...) - _timezone]: [mktime] reads the
    [tm_isdst] that line 91 copied, and two records that differ in [tm_isdst]
    only are encoded an hour apart (the one flagged as daylight-saving time
    3600 s too early), while the [timegm] branch encodes both alike. *)
Theorem rust_time_timegm_reads_isdst :
  same_but_utcoff_isdst summer_dst summer_std /\
  tm_utcoff summer_dst = tm_utcoff summer_std /\
  fst (rust_time_timegm mingw summer_dst proc_eastern) = 1593982000 /\
  fst (rust_time_timegm mingw summer_std proc_eastern) = 1593985600 /\
  fst (rust_time_timegm mingw summer_dst proc_eastern) <>
    fst (rust_time_timegm mingw summer_std proc_eastern) /\
  fst (rust_time_timegm glibc64 summer_dst proc_eastern) = 1593985600 /\
  fst (rust_time_timegm glibc64 summer_std proc_eastern) = 1593985600.
Proof.
  split; [unfold same_but_utcoff_isdst; simpl; tauto |].
  repeat split; vm_compute; (reflexivity || discriminate).
Qed.

(** C1 (as amended): on a host that decodes and encodes UTC as the reference
    calendar does, and for every instant in the host-supported range,
    [rust_time_timegm] applied to the record written by [rust_time_gmtime]
    returns the original seconds.  The nanoseconds are not part of the value
    [rust_time_timegm] returns; they are kept in [tm_nsec] of the decoded
    record, which equals the input nanoseconds. *)
Theorem rust_time_timegm_gmtime_seconds h p sec nsec tm0 out :
  supported h sec -> utc_decodes h -> utc_encodes h p ->
  fst (rust_time_timegm h (rust_time_gmtime h sec nsec tm0 out) p) = sec /\
  tm_nsec (rust_time_gmtime h sec nsec tm0 out) = nsec.
Proof.
  intros (H64 & Hfit & [t Ht]) Hdec Henc.
  rewrite (rust_time_gmtime_conforming h sec nsec tm0 out t) by assumption.
  split; [| reflexivity].
  destruct (gmtime_Some _ _ Ht) as [_ Hok].
  rewrite (rust_time_timegm_of_tm h p t out 0 nsec Hok).
  rewrite (Henc sec t Hfit Ht), (gmtime_timegm _ _ Ht).
  apply wrap_fits; [lia | assumption].
Qed.

Lemma rust_time_timegm_gmtime_seconds_witness :
  (supported glibc64 july_2020 /\ utc_decodes glibc64 /\
   utc_encodes glibc64 proc_unset) /\
  (fst (rust_time_timegm glibc64
          (rust_time_gmtime glibc64 july_2020 123 stack_tm stale) proc_unset)
   = july_2020 /\
   tm_nsec (rust_time_gmtime glibc64 july_2020 123 stack_tm stale) = 123).
Proof.
  assert (Hs : supported glibc64 july_2020).
  { unfold supported. split; [apply fitsb_fits; reflexivity |].
    split; [apply fitsb_fits; reflexivity |].
    vm_compute. eexists. reflexivity. }
  assert (Hd : utc_decodes glibc64).
  { intros s t buf _ Ht. unfold GMTIME. simpl. rewrite Ht. reflexivity. }
  assert (He : utc_encodes glibc64 proc_unset)
    by apply ref_utc_encodes_posix.
  split; [split; [| split]; assumption |].
  exact (rust_time_timegm_gmtime_seconds glibc64 proc_unset july_2020 123
           stack_tm stale Hs Hd He).
Defined.

(** C1 (as stated) fails: the value returned by [rust_time_timegm] is the
    same for the instants {0, 0} and {0, 1}, so no reading of that value gives
    back both the seconds and the nanoseconds of the instant. *)
Lemma rust_time_timegm_loses_nanoseconds :
  ~ exists instant_of : Z -> Z * Z,
      forall nsec, 0 <= nsec <= 999999999 ->
        instant_of (fst (rust_time_timegm glibc64
                           (rust_time_gmtime glibc64 0 nsec stack_tm stale)
                           proc_unset)) = (0, nsec).
Proof.
  intros [f Hf].
  pose proof (Hf 0 ltac:(lia)) as H0.
  pose proof (Hf 1 ltac:(lia)) as H1.
  vm_compute in H0, H1. congruence.
Qed.

(** ** Decoding in local time *)

Lemma rust_time_localtime_eq h p sec nsec tm0 out :
  rust_time_localtime h p sec nsec tm0 out =
  let r := LOCALTIME h p (to_time_t h sec) tm0 in
  if fst r =? NULL then (0, out)
  else (1, tm_to_rust_tm (snd r) out (local_utcoff h p (snd r)) nsec).
Proof.
  unfold rust_time_localtime. cbv zeta.
  destruct (LOCALTIME h p (to_time_t h sec) tm0) as [r t]. reflexivity.
Qed.

(** On every target [rust_time_localtime] returns 0 exactly when the value of
    the [LOCALTIME] macro compares equal to [NULL], and the caller's record is
    then left alone.  Otherwise it returns 1 and all eleven fields of the
    record are stored: the nine standard members from the buffer, the offset,
    and the nanoseconds, whatever the record held before.  On the branches
    where [LOCALTIME] yields a pointer this is the failure of the host call. *)
Lemma rust_time_localtime_fails_iff_null h p sec nsec tm0 out :
  let r := LOCALTIME h p (to_time_t h sec) tm0 in
  (fst (rust_time_localtime h p sec nsec tm0 out) = 0 <-> fst r = NULL) /\
  (fst r = NULL -> rust_time_localtime h p sec nsec tm0 out = (0, out)) /\
  (fst r <> NULL ->
   rust_time_localtime h p sec nsec tm0 out =
     (1, {| tm_sec := to_int32 (Libc.tm_sec (snd r));
            tm_min := to_int32 (Libc.tm_min (snd r));
            tm_hour := to_int32 (Libc.tm_hour (snd r));
            tm_mday := to_int32 (Libc.tm_mday (snd r));
            tm_mon := to_int32 (Libc.tm_mon (snd r));
            tm_year := to_int32 (Libc.tm_year (snd r));
            tm_wday := to_int32 (Libc.tm_wday (snd r));
            tm_yday := to_int32 (Libc.tm_yday (snd r));
            tm_isdst := to_int32 (Libc.tm_isdst (snd r));
            tm_utcoff := local_utcoff h p (snd r);
            tm_nsec := nsec |})).
Proof.
  cbv zeta. rewrite rust_time_localtime_eq. cbv zeta.
  destruct (Z.eqb_spec (fst (LOCALTIME h p (to_time_t h sec) tm0)) NULL) as [E | E].
  - repeat split; intros; try reflexivity; try assumption; contradiction.
  - repeat split; intros; try contradiction; try discriminate; reflexivity.
Qed.

(** Both outcomes occur on the reference POSIX host. *)
Example rust_time_localtime_succeeds :
  rust_time_localtime glibc64 proc_eastern july_2020 123 stack_tm stale =
    (1, mk_rust_time_tm 40 46 21 5 6 120 0 186 1 (-14400) 123).
Proof. vm_compute. reflexivity. Qed.

Example rust_time_localtime_fails :
  rust_time_localtime glibc64 proc_eastern (2 ^ 62) 123 stack_tm stale = (0, stale).
Proof. vm_compute. reflexivity. Qed.

(** On the [_MSC_VER] branch [LOCALTIME] is [localtime_s] (line 114), whose
    value is an [errno_t]: for every host of that branch the status is 0
    exactly when [localtime_s] returns zero, and a non-zero [errno_t] gives
    status 1 with a record filled from the buffer of that call. *)
Lemma rust_time_localtime_msvc_status h p sec nsec tm0 out :
  Libc.target_of h = Win32_MSVC ->
  let r := Libc.localtime_s h (tz_loaded p) (to_time_t h sec) tm0 in
  (fst (rust_time_localtime h p sec nsec tm0 out) = 0 <-> fst r = 0) /\
  (fst r = 0 -> rust_time_localtime h p sec nsec tm0 out = (0, out)) /\
  (fst r <> 0 ->
   rust_time_localtime h p sec nsec tm0 out =
     (1, tm_to_rust_tm (snd r) out
           (to_int32 (- Libc.timezone h (tz_loaded p))) nsec)).
Proof.
  intros HT. cbv zeta. rewrite rust_time_localtime_eq. cbv zeta.
  unfold LOCALTIME, local_utcoff. rewrite HT. unfold NULL.
  destruct (Z.eqb_spec
              (fst (Libc.localtime_s h (tz_loaded p) (to_time_t h sec) tm0)) 0)
    as [E | E].
  - repeat split; intros; try reflexivity; try assumption; contradiction.
  - repeat split; intros; try contradiction; try discriminate; reflexivity.
Qed.

(** C2 fails on the [_MSC_VER] branch.  [localtime_s] returns zero on
    success, so on the reference Microsoft runtime the function returns 0,
    its failure status, for an instant the host resolves, and leaves the
    record unwritten; for an instant the host rejects ([EINVAL]) it returns 1
    and fills the record from the buffer of the failed call. *)
Theorem rust_time_localtime_msvc_errno :
  fst (LOCALTIME msvc proc_eastern july_2020 stack_tm) = 0 /\
  rust_time_localtime msvc proc_eastern july_2020 0 stack_tm stale = (0, stale) /\
  fst (LOCALTIME msvc proc_eastern (-5) stack_tm) = Ref.EINVAL /\
  rust_time_localtime msvc proc_eastern (-5) 0 stack_tm stale =
    (1, mk_rust_time_tm (-1) (-1) (-1) (-1) (-1) (-1) (-1) (-1) (-1) (-18000) 0) /\
  rust_time_localtime glibc64 proc_eastern july_2020 0 stack_tm stale =
    (1, mk_rust_time_tm 40 46 21 5 6 120 0 186 1 (-14400) 0).
Proof. repeat split; vm_compute; reflexivity. Qed.

(** C10: when [rust_time_localtime] returns 0 the caller's record is not
    written: it is, field for field, what it was before the call. *)
Theorem rust_time_localtime_failure_keeps_record h p sec nsec tm0 out :
  fst (rust_time_localtime h p sec nsec tm0 out) = 0 ->
  snd (rust_time_localtime h p sec nsec tm0 out) = out.
Proof.
  rewrite rust_time_localtime_eq. cbv zeta.
  destruct (fst (LOCALTIME h p (to_time_t h sec) tm0) =? NULL).
  - reflexivity.
  - cbn [fst]. discriminate.
Qed.

Lemma rust_time_localtime_failure_keeps_record_witness :
  fst (rust_time_localtime glibc64 proc_eastern (2 ^ 62) 123 stack_tm stale) = 0 /\
  snd (rust_time_localtime glibc64 proc_eastern (2 ^ 62) 123 stack_tm stale) = stale.
Proof.
  assert (H : fst (rust_time_localtime glibc64 proc_eastern (2 ^ 62) 123
                     stack_tm stale) = 0) by (vm_compute; reflexivity).
  split; [exact H |].
  exact (rust_time_localtime_failure_keeps_record glibc64 proc_eastern (2 ^ 62)
           123 stack_tm stale H).
Defined.

Lemma local_decodes_fields h p s buf :
  local_decodes h p -> fits (Libc.time_t_bits h) s ->
  fst (LOCALTIME h p s buf) <> NULL ->
  Libc.ints_ok (snd (LOCALTIME h p s buf)) = true /\
  Ref.timegm (portable (snd (LOCALTIME h p s buf)))
  = s + Libc.tm_gmtoff (snd (LOCALTIME h p s buf)).
Proof.
  intros Hloc Hfit E.
  destruct (Hloc s buf Hfit E) as (_ & _ & Hdst & [c Hc] & Hciv).
  set (t := snd (LOCALTIME h p s buf)) in *.
  destruct (gmtime_Some _ _ Hc) as [-> Hcok].
  split.
  - rewrite (ints_ok_set_tm_isdst t Hdst).
    rewrite <- (ints_ok_portable (Libc.set_tm_isdst 0 t)).
    rewrite Hciv. exact Hcok.
  - rewrite (timegm_portable_isdst t), Hciv.
    rewrite (timegm_portable (Ref.civil_tm (s + Libc.tm_gmtoff t))).
    apply timegm_civil_tm.
Qed.

(** On the POSIX branch the reported offset is the offset the host applied:
    on a host that decodes local time by shifting the instant by [tm_gmtoff],
    whose [timegm] does not look at [tm_isdst] and encodes UTC as the
    reference calendar does, the local fields encoded as UTC exceed the input
    seconds by exactly [tm_utcoff]. *)
Lemma rust_time_localtime_utcoff_posix h p sec nsec tm0 out :
  Libc.target_of h = Posix ->
  (forall t v, Libc.timegm h (Libc.set_tm_isdst v t) = Libc.timegm h t) ->
  local_decodes h p -> utc_encodes h p ->
  fits (Libc.time_t_bits h) sec ->
  fst (rust_time_localtime h p sec nsec tm0 out) = 1 ->
  fits (Libc.time_t_bits h)
       (sec + tm_utcoff (snd (rust_time_localtime h p sec nsec tm0 out))) ->
  fst (rust_time_timegm h (snd (rust_time_localtime h p sec nsec tm0 out)) p) - sec
  = tm_utcoff (snd (rust_time_localtime h p sec nsec tm0 out)).
Proof.
  intros HT Hign Hloc Henc Hfit. rewrite rust_time_localtime_eq. cbv zeta.
  rewrite (to_time_t_fits h sec Hfit).
  destruct (Z.eqb_spec (fst (LOCALTIME h p sec tm0)) NULL) as [E | E];
    [cbn [fst]; discriminate |].
  intros _. cbn [fst snd].
  destruct (local_decodes_fields h p sec tm0 Hloc Hfit E) as [Hok Htg].
  destruct (Hloc sec tm0 Hfit E) as (Hoff & Hsum & _ & [c Hc] & Hciv).
  set (t := snd (LOCALTIME h p sec tm0)) in *.
  assert (Hu : local_utcoff h p t = Libc.tm_gmtoff t).
  { unfold local_utcoff. rewrite HT. exact (wrap_fits 32 _ eq_refl Hoff). }
  rewrite !(tm_utcoff_tm_to_rust_tm t out (local_utcoff h p t) nsec), Hu.
  intros Hfit'.
  rewrite (rust_time_timegm_of_tm h p t out (Libc.tm_gmtoff t) nsec Hok).
  assert (Ht : fst (TIMEGM h (portable t) p) = sec + Libc.tm_gmtoff t).
  { destruct (gmtime_Some _ _ Hc) as [Hceq _].
    transitivity (fst (TIMEGM h (portable c) p)).
    - unfold TIMEGM. rewrite HT. cbn [fst].
      rewrite <- (Hign (portable t) 0).
      change (Libc.set_tm_isdst 0 (portable t))
        with (portable (Libc.set_tm_isdst 0 t)).
      rewrite Hciv, <- Hceq. reflexivity.
    - rewrite (Henc (sec + Libc.tm_gmtoff t) c Hfit' Hc).
      exact (gmtime_timegm _ c Hc). }
  rewrite Ht. unfold to_int64. rewrite (wrap_fits 64 _ eq_refl Hsum). lia.
Qed.

(** The lemma for the POSIX branch applies to the reference host at every
    instant that [time_t] holds and that the host can resolve. *)
Lemma rust_time_localtime_utcoff_glibc64 sec nsec tm0 out :
  fits 64 sec ->
  fst (rust_time_localtime glibc64 proc_eastern sec nsec tm0 out) = 1 ->
  fst (rust_time_timegm glibc64
         (snd (rust_time_localtime glibc64 proc_eastern sec nsec tm0 out))
         proc_eastern) - sec
  = tm_utcoff (snd (rust_time_localtime glibc64 proc_eastern sec nsec tm0 out)).
Proof.
  intros Hfit Hs.
  assert (Hl : local_decodes glibc64 proc_eastern)
    by (apply ref_local_decodes_posix; reflexivity).
  apply rust_time_localtime_utcoff_posix;
    [reflexivity | intros t v; reflexivity | exact Hl |
     apply ref_utc_encodes_posix | exact Hfit | exact Hs |].
  revert Hs. rewrite rust_time_localtime_eq. cbv zeta.
  rewrite (to_time_t_fits glibc64 sec Hfit).
  destruct (Z.eqb_spec (fst (LOCALTIME glibc64 proc_eastern sec tm0)) NULL)
    as [E | E]; [cbn [fst]; discriminate |].
  intros _. cbn [snd].
  destruct (Hl sec tm0 Hfit E) as (Hoff & Hsum & _).
  rewrite tm_utcoff_tm_to_rust_tm. unfold local_utcoff. cbn [glibc64 Ref.host Libc.target_of].
  unfold to_int32. rewrite (wrap_fits 32 _ eq_refl Hoff). exact Hsum.
Qed.

(** The reference POSIX host meets the two assumptions, so the lemma applies
    to it at a summer instant of [Ref.us_eastern]. *)
Example rust_time_localtime_utcoff_glibc :
  fst (rust_time_timegm glibc64
         (snd (rust_time_localtime glibc64 proc_eastern july_2020 0 stack_tm stale))
         proc_eastern) - july_2020 = -14400 /\
  tm_utcoff (snd (rust_time_localtime glibc64 proc_eastern july_2020 0
                    stack_tm stale)) = -14400.
Proof. split; vm_compute; reflexivity. Qed.

(** C8 fails on the Windows branch: at an instant of the daylight-saving
    period the host applies -14400 s (the local fields, encoded as UTC, are
    the input seconds minus 14400), the POSIX branch reports -14400, and the
    Windows branch reports [-timezone] = -18000, the standard offset. *)
Theorem rust_time_localtime_utcoff_win32_ignores_dst :
  let r := rust_time_localtime mingw proc_eastern july_2020 0 stack_tm stale in
  fst r = 1 /\
  tm_isdst (snd r) = 1 /\
  Ref.timegm (rust_time_tm_to_tm (snd r)) - july_2020 = -14400 /\
  tm_utcoff (snd r) = -18000 /\
  tm_utcoff (snd (rust_time_localtime glibc64 proc_eastern july_2020 0
                    stack_tm stale)) = -14400.
Proof. cbv zeta. repeat split; vm_compute; reflexivity. Qed.

(** The Native Client branch stores [_timezone] itself, seconds west of UTC:
    the sign is the opposite of the offset applied, in winter too. *)
Example rust_time_localtime_utcoff_nacl_sign :
  let r := rust_time_localtime nacl proc_eastern 1577880000 0 stack_tm stale in
  fst r = 1 /\
  tm_isdst (snd r) = 0 /\
  Ref.timegm (rust_time_tm_to_tm (snd r)) - 1577880000 = -18000 /\
  tm_utcoff (snd r) = 18000.
Proof. cbv zeta. repeat split; vm_compute; reflexivity. Qed.

(** * Further properties of the shim *)

(** ** The field copies compose *)

(** X1: a [struct tm] whose [int] members hold [int]s, copied into a
    [rust_time_tm] by [tm_to_rust_tm] and back by [rust_time_tm_to_tm], keeps
    its nine standard members; [tm_gmtoff] and [tm_zone] come back cleared,
    whatever offset and nanoseconds were stored with it. *)
Theorem struct_tm_through_rust_time_tm t out utcoff nsec :
  Libc.ints_ok t = true ->
  rust_time_tm_to_tm (tm_to_rust_tm t out utcoff nsec) = portable t /\
  Libc.tm_gmtoff (rust_time_tm_to_tm (tm_to_rust_tm t out utcoff nsec)) = 0 /\
  Libc.tm_zone (rust_time_tm_to_tm (tm_to_rust_tm t out utcoff nsec)) = NULL.
Proof.
  intros Hok. rewrite (tm_round_trip t out utcoff nsec Hok).
  repeat split; reflexivity.
Qed.

Lemma struct_tm_through_rust_time_tm_witness :
  Libc.ints_ok stack_tm = true /\
  (rust_time_tm_to_tm (tm_to_rust_tm stack_tm stale (-14400) 123) = portable stack_tm /\
   Libc.tm_gmtoff (rust_time_tm_to_tm (tm_to_rust_tm stack_tm stale (-14400) 123)) = 0 /\
   Libc.tm_zone (rust_time_tm_to_tm (tm_to_rust_tm stack_tm stale (-14400) 123)) = NULL).
Proof.
  split; [reflexivity |].
  exact (struct_tm_through_rust_time_tm stack_tm stale (-14400) 123 eq_refl).
Defined.

(** X2: a [rust_time_tm] whose nine standard members hold [int32_t]s, copied
    into a [struct tm] by [rust_time_tm_to_tm] and back by [tm_to_rust_tm]
    with its own offset and nanoseconds, is the record it was: the two copies
    lose nothing but [tm_utcoff] and [tm_nsec], which the caller passes
    again. *)
Theorem rust_time_tm_through_struct_tm r out :
  int32_fields_ok r = true ->
  tm_to_rust_tm (rust_time_tm_to_tm r) out (tm_utcoff r) (tm_nsec r) = r.
Proof.
  unfold int32_fields_ok. rewrite !andb_true_iff.
  intros [[[[[[[[H1 H2] H3] H4] H5] H6] H7] H8] H9].
  rewrite tm_to_rust_tm_eq, rust_time_tm_to_tm_eq.
  cbn [Libc.tm_sec Libc.tm_min Libc.tm_hour Libc.tm_mday Libc.tm_mon
       Libc.tm_year Libc.tm_wday Libc.tm_yday Libc.tm_isdst].
  unfold to_int, to_int32. rewrite !wrap_idem by lia. fold to_int32.
  rewrite !to_int32_fits by assumption. destruct r. reflexivity.
Qed.

Lemma rust_time_tm_through_struct_tm_witness :
  int32_fields_ok summer_dst = true /\
  tm_to_rust_tm (rust_time_tm_to_tm summer_dst) stale (tm_utcoff summer_dst)
    (tm_nsec summer_dst) = summer_dst.
Proof.
  split; [reflexivity |].
  exact (rust_time_tm_through_struct_tm summer_dst stale eq_refl).
Defined.

(** ** Edge behaviour of the decoders *)

(** X3: [rust_time_gmtime] does not test what [GMTIME] returns (line 148).
    On the branches where [GMTIME] yields a pointer, when it yields [NULL]
    the caller's record is written all the same, with a zero [tm_utcoff] and
    the input nanoseconds; its nine standard members are those of the
    automatic [struct tm] as the failed call left it.  Behind the wrapper of
    lines 117-122, which returns before it stores, that is the previous,
    indeterminate content of the automatic [struct tm]. *)
Theorem rust_time_gmtime_ignores_failure h sec nsec tm0 out :
  pointer_target (Libc.target_of h) = true ->
  fst (GMTIME h (to_time_t h sec) tm0) = NULL ->
  rust_time_gmtime h sec nsec tm0 out =
    tm_to_rust_tm (GMTIME_leaves h (to_time_t h sec) tm0) out 0 nsec /\
  (Libc.target_of h = Win32_CRT ->
   rust_time_gmtime h sec nsec tm0 out = tm_to_rust_tm tm0 out 0 nsec).
Proof.
  intros HT. rewrite rust_time_gmtime_eq. unfold GMTIME, GMTIME_crt, GMTIME_leaves.
  destruct (Libc.target_of h); try discriminate HT;
    match goal with
    | |- context [match ?x with Some _ => _ | None => _ end] => destruct x
    end; cbn [fst snd]; intros E; try discriminate E;
    (split; [reflexivity | intros HC; first [reflexivity | discriminate HC]]).
Qed.

Lemma rust_time_gmtime_ignores_failure_witness :
  (pointer_target (Libc.target_of mingw) = true /\
   fst (GMTIME mingw (to_time_t mingw (2 ^ 62)) stack_tm) = NULL) /\
  (rust_time_gmtime mingw (2 ^ 62) 5 stack_tm stale =
     tm_to_rust_tm (GMTIME_leaves mingw (to_time_t mingw (2 ^ 62)) stack_tm)
       stale 0 5 /\
   (Libc.target_of mingw = Win32_CRT ->
    rust_time_gmtime mingw (2 ^ 62) 5 stack_tm stale =
      tm_to_rust_tm stack_tm stale 0 5)).
Proof.
  assert (H : fst (GMTIME mingw (to_time_t mingw (2 ^ 62)) stack_tm) = NULL)
    by (vm_compute; reflexivity).
  split; [split; [reflexivity | exact H] |].
  exact (rust_time_gmtime_ignores_failure mingw (2 ^ 62) 5 stack_tm stale
           eq_refl H).
Defined.

(** X4: on the branches where the host call yields a pointer, a successful
    decoding leaves nothing of the previous contents behind: all eleven
    members of the caller's record are stored, from a [struct tm] that the
    host filled, so the result of [rust_time_gmtime] after a successful
    [GMTIME], and that of a successful [rust_time_localtime], depend neither
    on the automatic [struct tm] nor on the record passed in. *)
Theorem decoders_overwrite_on_success h p sec nsec tm0 out tm0' out' :
  pointer_target (Libc.target_of h) = true ->
  (fst (GMTIME h (to_time_t h sec) tm0) <> NULL ->
   rust_time_gmtime h sec nsec tm0 out = rust_time_gmtime h sec nsec tm0' out') /\
  (fst (rust_time_localtime h p sec nsec tm0 out) = 1 ->
   rust_time_localtime h p sec nsec tm0 out =
     rust_time_localtime h p sec nsec tm0' out').
Proof.
  intros HT. split.
  - rewrite !rust_time_gmtime_eq. unfold GMTIME, GMTIME_crt.
    destruct (Libc.target_of h); try discriminate HT;
      match goal with
      | |- context [match ?x with Some _ => _ | None => _ end] => destruct x
      end; cbn [fst snd]; intros E; try reflexivity; contradiction E; reflexivity.
  - rewrite !rust_time_localtime_eq. cbv zeta. unfold LOCALTIME, LOCALTIME_crt.
    destruct (Libc.target_of h); try discriminate HT;
      match goal with
      | |- context [match ?x with Some _ => _ | None => _ end] => destruct x
      end; cbn [fst snd]; intros E; try reflexivity; discriminate E.
Qed.

Lemma decoders_overwrite_on_success_witness :
  pointer_target (Libc.target_of glibc64) = true /\
  ((fst (GMTIME glibc64 (to_time_t glibc64 july_2020) stack_tm) <> NULL ->
    rust_time_gmtime glibc64 july_2020 123 stack_tm stale =
      rust_time_gmtime glibc64 july_2020 123 Libc.zeroed summer_std) /\
   (fst (rust_time_localtime glibc64 proc_eastern july_2020 123 stack_tm stale) = 1 ->
    rust_time_localtime glibc64 proc_eastern july_2020 123 stack_tm stale =
      rust_time_localtime glibc64 proc_eastern july_2020 123 Libc.zeroed summer_std)).
Proof.
  split; [reflexivity |].
  exact (decoders_overwrite_on_success glibc64 proc_eastern july_2020 123
           stack_tm stale Libc.zeroed summer_std eq_refl).
Defined.

(** X5: [rust_time_localtime] converts its [int64_t] seconds to [time_t]
    before anything else (line 156): seconds that [time_t] cannot hold give
    the status and the record of the seconds they wrap to. *)
Theorem rust_time_localtime_wraps_to_time_t h p sec nsec tm0 out :
  0 < Libc.time_t_bits h ->
  rust_time_localtime h p sec nsec tm0 out =
    rust_time_localtime h p (wrap (Libc.time_t_bits h) sec) nsec tm0 out.
Proof.
  intros Hw. rewrite !rust_time_localtime_eq. unfold to_time_t.
  rewrite (wrap_idem _ sec Hw). reflexivity.
Qed.

Lemma rust_time_localtime_wraps_to_time_t_witness :
  0 < Libc.time_t_bits glibc32 /\
  rust_time_localtime glibc32 proc_eastern (2 ^ 32 + january_2020) 9 stack_tm stale =
    rust_time_localtime glibc32 proc_eastern
      (wrap (Libc.time_t_bits glibc32) (2 ^ 32 + january_2020)) 9 stack_tm stale.
Proof.
  split; [reflexivity |].
  exact (rust_time_localtime_wraps_to_time_t glibc32 proc_eastern
           (2 ^ 32 + january_2020) 9 stack_tm stale eq_refl).
Defined.

(** A 32-bit [time_t] decodes [2 ^ 32 + january_2020] as [january_2020]. *)
Example rust_time_localtime_wraparound :
  rust_time_localtime glibc32 proc_eastern (2 ^ 32 + january_2020) 9 stack_tm stale =
    (1, mk_rust_time_tm 0 0 7 1 0 120 3 0 0 (-18000) 9).
Proof. vm_compute. reflexivity. Qed.

(** ** The fallback [timegm] and its callers *)



(** X7: on every path, also when [strdup] fails, the fallback [timegm]
    changes no variable other than [TZ], and it returns with the time-zone
    rule loaded from the value [TZ] has on return. *)
Theorem timegm_touches_TZ_only h tm p name :
  name <> "TZ"%string ->
  getenv name (snd (timegm h tm p)) = getenv name p /\
  tz_loaded (snd (timegm h tm p)) = getenv "TZ" (snd (timegm h tm p)).
Proof.
  intros Hne. rewrite timegm_eq. cbn [snd]. unfold getenv.
  destruct (environ p !! "TZ"%string) as [s |];
    [destruct (Libc.strdup h s) |];
    unfold tzset, setenv, unsetenv; cbn [environ tz_loaded];
    (split; [| reflexivity]);
    rewrite ?lookup_insert_ne, ?lookup_delete_ne, ?lookup_insert_ne by congruence;
    reflexivity.
Qed.

Lemma timegm_touches_TZ_only_witness :
  "HOME"%string <> "TZ"%string /\
  (getenv "HOME" (snd (timegm bionic_oom (rust_time_tm_to_tm summer_std) proc_home))
   = getenv "HOME" proc_home /\
   tz_loaded (snd (timegm bionic_oom (rust_time_tm_to_tm summer_std) proc_home))
   = getenv "TZ" (snd (timegm bionic_oom (rust_time_tm_to_tm summer_std) proc_home))).
Proof.
  assert (H : "HOME"%string <> "TZ"%string) by discriminate.
  split; [exact H |].
  exact (timegm_touches_TZ_only bionic_oom (rust_time_tm_to_tm summer_std)
           proc_home "HOME" H).
Defined.




(** ** Encoding in local time *)

(** X11: [rust_time_mktime] reads neither [tm_utcoff] nor [tm_nsec]: two
    records that agree on the nine standard members, [tm_isdst] among them,
    are encoded alike on every host, whatever offsets and nanoseconds they
    carry. *)
Theorem rust_time_mktime_ignores_utcoff_nsec h p a b :
  tm_sec a = tm_sec b -> tm_min a = tm_min b -> tm_hour a = tm_hour b ->
  tm_mday a = tm_mday b -> tm_mon a = tm_mon b -> tm_year a = tm_year b ->
  tm_wday a = tm_wday b -> tm_yday a = tm_yday b -> tm_isdst a = tm_isdst b ->
  rust_time_mktime h a p = rust_time_mktime h b p.
Proof.
  intros H1 H2 H3 H4 H5 H6 H7 H8 H9. unfold rust_time_mktime.
  rewrite !rust_time_tm_to_tm_eq, H1, H2, H3, H4, H5, H6, H7, H8, H9.
  reflexivity.
Qed.

Lemma rust_time_mktime_ignores_utcoff_nsec_witness :
  rust_time_mktime glibc64 summer_dst proc_eastern =
    rust_time_mktime glibc64 (set_tm_utcoff (-14400) (set_tm_nsec 5 summer_dst))
      proc_eastern.
Proof.
  exact (rust_time_mktime_ignores_utcoff_nsec glibc64 proc_eastern summer_dst
           (set_tm_utcoff (-14400) (set_tm_nsec 5 summer_dst))
           eq_refl eq_refl eq_refl eq_refl eq_refl eq_refl eq_refl eq_refl eq_refl).
Defined.

(** The reference [mktime] undoes the reference local decoding, in every
    zone and at every instant, daylight-saving transitions included. *)
Lemma timegm_mk_tm c wday yday isdst gmtoff zone :
  Ref.timegm (Libc.mk_tm (Libc.tm_sec c) (Libc.tm_min c) (Libc.tm_hour c)
                (Libc.tm_mday c) (Libc.tm_mon c) (Libc.tm_year c)
                wday yday isdst gmtoff zone) = Ref.timegm c.
Proof. reflexivity. Qed.

Lemma ref_mktime_localtime z s t :
  Ref.localtime z s = Some t ->
  Libc.ints_ok t = true /\ Ref.mktime z (portable t) = s.
Proof.
  unfold Ref.localtime. cbv zeta.
  destruct (Ref.gmtime (s + Ref.offset_at z s)) as [c |] eqn:Hc; [| discriminate].
  destruct (gmtime_Some _ _ Hc) as [Hceq Hcok].
  assert (Htg : Ref.timegm c = s + Ref.offset_at z s)
    by (rewrite Hceq; apply timegm_civil_tm).
  clear Hc Hceq. intros [= <-]. split.
  - revert Hcok. unfold Libc.ints_ok.
    cbn [Libc.tm_sec Libc.tm_min Libc.tm_hour Libc.tm_mday Libc.tm_mon
         Libc.tm_year Libc.tm_wday Libc.tm_yday Libc.tm_isdst].
    rewrite !andb_true_iff. intros [H _]. split; [exact H |].
    destruct (Ref.dst_active z s); reflexivity.
  - unfold Ref.mktime, portable. cbv zeta.
    cbn [Libc.tm_sec Libc.tm_min Libc.tm_hour Libc.tm_mday Libc.tm_mon
         Libc.tm_year Libc.tm_wday Libc.tm_yday Libc.tm_isdst].
    rewrite (timegm_mk_tm c), Htg. unfold Ref.offset_at.
    destruct (Ref.dst_active z s); cbn [Z.ltb Z.eqb Z.compare]; lia.
Qed.

Lemma ref_mktime_inverts_localtime bits sys heap p :
  mktime_inverts_localtime (Ref.host Posix bits sys heap) p.
Proof.
  intros s buf Hfit. unfold LOCALTIME.
  cbn [Ref.host Libc.target_of Libc.localtime_r Libc.mktime Libc.time_t_bits] in *.
  destruct (Ref.localtime (Ref.zone_of sys (tz_loaded p)) s) as [t |] eqn:Ht;
    cbn [fst snd]; [| intros E; contradiction E; reflexivity].
  intros _. destruct (ref_mktime_localtime _ s t Ht) as [Hok Hmk].
  split; [exact Hok |]. rewrite Hmk. exact (bounded_fits bits s Hfit).
Qed.

(** [rust_time_mktime] goes through [mktime], which loads the rule of the
    current [TZ] first: its value is the host's for that rule, whatever rule
    was loaded before, and that rule is loaded afterwards. *)
Lemma rust_time_mktime_eq h r p :
  rust_time_mktime h r p =
    (to_int64 (Libc.mktime h (getenv "TZ" p) (rust_time_tm_to_tm r)), tzset p).
Proof. reflexivity. Qed.

(** With [TZ=EST5EDT] in the environment and the rule of an empty [TZ] still
    loaded, 21:46:40 standard time is encoded as Eastern time, not as UTC. *)
Example rust_time_mktime_reloads_rule :
  rust_time_mktime glibc64 summer_std proc_stale = (1594003600, proc_eastern) /\
  fst (rust_time_mktime glibc64 summer_std (tzset (setenv "TZ" "" proc_stale)))
  = 1593985600.
Proof. split; vm_compute; reflexivity. Qed.

(** X12: in a process whose loaded time-zone rule is that of its current
    [TZ], and on a host whose [mktime] undoes its own local decoding,
    [rust_time_mktime] applied to the record that [rust_time_localtime] wrote
    returns the seconds that were decoded: the record carries everything
    [mktime] needs, [tm_isdst] included, so the round trip also holds inside
    and next to a daylight-saving period. *)
Theorem rust_time_mktime_localtime h p sec nsec tm0 out :
  rule_is_current p ->
  mktime_inverts_localtime h p ->
  fits 64 sec -> fits (Libc.time_t_bits h) sec ->
  fst (rust_time_localtime h p sec nsec tm0 out) = 1 ->
  fst (rust_time_mktime h (snd (rust_time_localtime h p sec nsec tm0 out)) p) = sec.
Proof.
  intros Hcur Hinv H64 Hfit. rewrite rust_time_localtime_eq. cbv zeta.
  rewrite (to_time_t_fits h sec Hfit).
  destruct (Z.eqb_spec (fst (LOCALTIME h p sec tm0)) NULL) as [E | E];
    [cbn [fst]; discriminate |].
  intros _. cbn [snd]. destruct (Hinv sec tm0 Hfit E) as [Hok Hmk].
  set (t := snd (LOCALTIME h p sec tm0)) in *.
  rewrite rust_time_mktime_eq. cbn [fst].
  rewrite (tm_round_trip t out (local_utcoff h p t) nsec Hok).
  rewrite <- Hcur, Hmk.
  exact (wrap_fits 64 sec eq_refl H64).
Qed.

Lemma rust_time_mktime_localtime_witness :
  (rule_is_current proc_eastern /\
   mktime_inverts_localtime glibc64 proc_eastern /\
   fits 64 july_2020 /\ fits (Libc.time_t_bits glibc64) july_2020 /\
   fst (rust_time_localtime glibc64 proc_eastern july_2020 123 stack_tm stale) = 1) /\
  fst (rust_time_mktime glibc64
         (snd (rust_time_localtime glibc64 proc_eastern july_2020 123 stack_tm stale))
         proc_eastern) = july_2020.
Proof.
  assert (Hc : rule_is_current proc_eastern) by reflexivity.
  assert (Hi : mktime_inverts_localtime glibc64 proc_eastern)
    by apply ref_mktime_inverts_localtime.
  assert (Hf : fits 64 july_2020) by (apply fitsb_fits; reflexivity).
  assert (Hs : fst (rust_time_localtime glibc64 proc_eastern july_2020 123
                      stack_tm stale) = 1) by (vm_compute; reflexivity).
  split; [repeat (split; [assumption |]); assumption |].
  exact (rust_time_mktime_localtime glibc64 proc_eastern july_2020 123
           stack_tm stale Hc Hi Hf Hf Hs).
Defined.

(** ** How the decoders relate *)

Lemma tm_to_rust_tm_clear_isdst t out utcoff nsec :
  set_tm_isdst 0 (set_tm_utcoff 0 (tm_to_rust_tm t out utcoff nsec)) =
  tm_to_rust_tm (portable (Libc.set_tm_isdst 0 t)) out 0 nsec.
Proof. reflexivity. Qed.

(** X13: on the branch that reads [tm_gmtoff] and on a conforming host, local
    time is UTC shifted by the reported offset: the record that
    [rust_time_localtime] writes for [sec] has the calendar fields that
    [rust_time_gmtime] writes for [sec + tm_utcoff]; only [tm_isdst] and
    [tm_utcoff], which are zero in UTC, differ. *)
Theorem rust_time_localtime_is_shifted_gmtime h p sec nsec tm0 out tm0' out' :
  timezone_target (Libc.target_of h) = false ->
  local_decodes h p -> utc_decodes h ->
  fits (Libc.time_t_bits h) sec ->
  fst (rust_time_localtime h p sec nsec tm0 out) = 1 ->
  fits (Libc.time_t_bits h)
       (sec + tm_utcoff (snd (rust_time_localtime h p sec nsec tm0 out))) ->
  set_tm_isdst 0 (set_tm_utcoff 0 (snd (rust_time_localtime h p sec nsec tm0 out)))
  = rust_time_gmtime h
      (sec + tm_utcoff (snd (rust_time_localtime h p sec nsec tm0 out)))
      nsec tm0' out'.
Proof.
  intros HT Hloc Hdec Hfit. rewrite rust_time_localtime_eq. cbv zeta.
  rewrite (to_time_t_fits h sec Hfit).
  destruct (Z.eqb_spec (fst (LOCALTIME h p sec tm0)) NULL) as [E | E];
    [cbn [fst]; discriminate |].
  intros _. cbn [snd].
  destruct (Hloc sec tm0 Hfit E) as (Hoff & _ & _ & [c Hc] & Hciv).
  set (t := snd (LOCALTIME h p sec tm0)) in *.
  assert (Hu : local_utcoff h p t = Libc.tm_gmtoff t).
  { unfold local_utcoff. destruct (Libc.target_of h); try discriminate HT;
      exact (wrap_fits 32 _ eq_refl Hoff). }
  rewrite !(tm_utcoff_tm_to_rust_tm t out (local_utcoff h p t) nsec), Hu.
  intros Hfit'.
  rewrite (rust_time_gmtime_conforming h (sec + Libc.tm_gmtoff t) nsec tm0' out'
             c Hdec Hfit' Hc).
  destruct (gmtime_Some _ _ Hc) as [Hceq _].
  rewrite (tm_to_rust_tm_clear_isdst t out (Libc.tm_gmtoff t) nsec), Hciv, <- Hceq.
  reflexivity.
Qed.

Lemma rust_time_localtime_is_shifted_gmtime_witness :
  (timezone_target (Libc.target_of glibc64) = false /\
   local_decodes glibc64 proc_eastern /\ utc_decodes glibc64 /\
   fits (Libc.time_t_bits glibc64) july_2020 /\
   fst (rust_time_localtime glibc64 proc_eastern july_2020 123 stack_tm stale) = 1 /\
   fits (Libc.time_t_bits glibc64)
        (july_2020 + tm_utcoff (snd (rust_time_localtime glibc64 proc_eastern
                                       july_2020 123 stack_tm stale)))) /\
  set_tm_isdst 0 (set_tm_utcoff 0
    (snd (rust_time_localtime glibc64 proc_eastern july_2020 123 stack_tm stale)))
  = rust_time_gmtime glibc64
      (july_2020 + tm_utcoff (snd (rust_time_localtime glibc64 proc_eastern
                                     july_2020 123 stack_tm stale)))
      123 Libc.zeroed summer_std.
Proof.
  assert (Hl : local_decodes glibc64 proc_eastern)
    by (apply ref_local_decodes_posix; reflexivity).
  assert (Hd : utc_decodes glibc64).
  { intros s t buf _ Ht. unfold GMTIME. simpl. rewrite Ht. reflexivity. }
  assert (Hf : fits (Libc.time_t_bits glibc64) july_2020)
    by (apply fitsb_fits; reflexivity).
  assert (Hs : fst (rust_time_localtime glibc64 proc_eastern july_2020 123
                      stack_tm stale) = 1) by (vm_compute; reflexivity).
  assert (Hf' : fits (Libc.time_t_bits glibc64)
                  (july_2020 + tm_utcoff (snd (rust_time_localtime glibc64
                     proc_eastern july_2020 123 stack_tm stale))))
    by (apply fitsb_fits; vm_compute; reflexivity).
  split; [repeat (split; [first [reflexivity | assumption] |]); assumption |].
  exact (rust_time_localtime_is_shifted_gmtime glibc64 proc_eastern july_2020 123
           stack_tm stale Libc.zeroed summer_std eq_refl Hl Hd Hf Hs Hf').
Defined.

(** X14: on the branches that read the global [timezone] (Windows and Native
    Client, lines 159-162) the reported offset does not depend on the instant:
    any two successful calls in the same process report the same [tm_utcoff],
    whatever [tm_isdst] the host set for each. *)
Theorem rust_time_localtime_utcoff_from_timezone h p sec nsec tm0 out
    sec' nsec' tm0' out' :
  timezone_target (Libc.target_of h) = true ->
  fst (rust_time_localtime h p sec nsec tm0 out) = 1 ->
  fst (rust_time_localtime h p sec' nsec' tm0' out') = 1 ->
  tm_utcoff (snd (rust_time_localtime h p sec nsec tm0 out)) =
  tm_utcoff (snd (rust_time_localtime h p sec' nsec' tm0' out')).
Proof.
  intros HT. rewrite !rust_time_localtime_eq. cbv zeta.
  destruct (fst (LOCALTIME h p (to_time_t h sec) tm0) =? NULL);
    [cbn [fst]; discriminate |].
  destruct (fst (LOCALTIME h p (to_time_t h sec') tm0') =? NULL);
    [cbn [fst]; discriminate |].
  intros _ _. cbn [snd]. rewrite !tm_to_rust_tm_eq. cbn [tm_utcoff].
  unfold local_utcoff. destruct (Libc.target_of h); try discriminate HT; reflexivity.
Qed.

Lemma rust_time_localtime_utcoff_from_timezone_witness :
  (timezone_target (Libc.target_of mingw) = true /\
   fst (rust_time_localtime mingw proc_eastern july_2020 0 stack_tm stale) = 1 /\
   fst (rust_time_localtime mingw proc_eastern january_2020 0 stack_tm stale) = 1) /\
  tm_utcoff (snd (rust_time_localtime mingw proc_eastern july_2020 0 stack_tm stale)) =
  tm_utcoff (snd (rust_time_localtime mingw proc_eastern january_2020 0 stack_tm stale)).
Proof.
  assert (H1 : fst (rust_time_localtime mingw proc_eastern july_2020 0
                      stack_tm stale) = 1) by (vm_compute; reflexivity).
  assert (H2 : fst (rust_time_localtime mingw proc_eastern january_2020 0
                      stack_tm stale) = 1) by (vm_compute; reflexivity).
  split; [split; [reflexivity | split; assumption] |].
  exact (rust_time_localtime_utcoff_from_timezone mingw proc_eastern july_2020 0
           stack_tm stale january_2020 0 stack_tm stale eq_refl H1 H2).
Defined.

(** X15: on a conforming host [rust_time_gmtime] tells supported instants
    apart: two calls that write the same record were given the same seconds
    and the same nanoseconds, whatever the buffers held before. *)
Theorem rust_time_gmtime_injective h sec nsec tm0 out sec' nsec' tm0' out' :
  utc_decodes h -> supported h sec -> supported h sec' ->
  rust_time_gmtime h sec nsec tm0 out = rust_time_gmtime h sec' nsec' tm0' out' ->
  sec = sec' /\ nsec = nsec'.
Proof.
  intros Hdec (_ & Hfit & [t Ht]) (_ & Hfit' & [t' Ht']).
  rewrite (rust_time_gmtime_conforming h sec nsec tm0 out t Hdec Hfit Ht).
  rewrite (rust_time_gmtime_conforming h sec' nsec' tm0' out' t' Hdec Hfit' Ht').
  intros Heq. split.
  - destruct (gmtime_Some _ _ Ht) as [_ Hok].
    destruct (gmtime_Some _ _ Ht') as [_ Hok'].
    apply (f_equal rust_time_tm_to_tm) in Heq.
    rewrite (tm_round_trip t out 0 nsec Hok) in Heq.
    rewrite (tm_round_trip t' out' 0 nsec' Hok') in Heq.
    rewrite <- (gmtime_timegm sec t Ht), <- (gmtime_timegm sec' t' Ht'), Heq.
    reflexivity.
  - exact (f_equal tm_nsec Heq).
Qed.

Lemma rust_time_gmtime_injective_witness :
  (utc_decodes glibc64 /\ supported glibc64 july_2020 /\
   supported glibc64 july_2020 /\
   rust_time_gmtime glibc64 july_2020 123 stack_tm stale =
     rust_time_gmtime glibc64 july_2020 123 Libc.zeroed summer_std) /\
  (july_2020 = july_2020 /\ 123 = 123).
Proof.
  assert (Hd : utc_decodes glibc64).
  { intros s t buf _ Ht. unfold GMTIME. simpl. rewrite Ht. reflexivity. }
  assert (Hs : supported glibc64 july_2020).
  { unfold supported. split; [apply fitsb_fits; reflexivity |].
    split; [apply fitsb_fits; reflexivity |].
    vm_compute. eexists. reflexivity. }
  assert (He : rust_time_gmtime glibc64 july_2020 123 stack_tm stale =
               rust_time_gmtime glibc64 july_2020 123 Libc.zeroed summer_std)
    by (vm_compute; reflexivity).
  split; [repeat (split; [assumption |]); assumption |].
  exact (rust_time_gmtime_injective glibc64 july_2020 123 stack_tm stale
           july_2020 123 Libc.zeroed summer_std Hd Hs Hs He).
Defined.
